(** * GeneMarketFHE: the encrypted-aggregation ledger protocol

    Shallow embedding of the contract [GeneMarketFHE] (Solidity ^0.8.24):
    access control, the two cooldown gates, batch lifecycle, encrypted
    submissions, the aggregation request and the decryption callback.

    Conventions.
    - [uint256], [address], [bytes32] and [euint32] handles are integers
      ([Z]); Solidity 0.8 arithmetic is checked, so [+] and [++] revert
      with [Panic 0x11] when the result leaves the [uint256] range.
    - A [mapping] is a finite map read with the type's zero value as
      default.
    - A call either returns [Ok] with the new state and the events it
      emitted, or [Revert]s with an error; a reverted call leaves the
      ledger state as it was ([state_after]).
    - The confidential-computing library ([FHE.*]), [keccak256] over the
      ABI encoding and the oracle's request identifiers are external to
      the contract; they are taken as parameters ([Engine], [Env]). *)

From Stdlib Require Import ZArith List Bool Lia.
From Stdlib Require String DecimalString.
From stdpp Require Import base option gmap.
Import ListNotations.

Open Scope Z_scope.

(** ** Results of a call *)

Inductive Error :=
| NotOwner
| NotProvider
| Paused
| CooldownActive
| BatchClosed
| InvalidBatch
| ReplayAttempt
| StateMismatch
| InvalidProof
| AlreadyProcessed
| EmptyBatch
| InvalidCooldown
| Panic (code : Z)
| AbiDecodeFailure.

Inductive result (A : Type) :=
| Ok (a : A)
| Revert (e : Error).

Arguments Ok {A} a.
Arguments Revert {A} e.

Definition bind {A B : Type} (r : result A) (k : A -> result B) : result B :=
  match r with
  | Ok a => k a
  | Revert e => Revert e
  end.

Notation "x <- r ;; k" := (bind r (fun x => k))
  (at level 100, r at next level, right associativity).
Notation "r ;;; k" := (bind r (fun _ => k))
  (at level 100, right associativity).

Definition require (b : bool) (e : Error) : result unit :=
  if b then Ok tt else Revert e.

Definition is_ok {A : Type} (r : result A) : bool :=
  match r with Ok _ => true | Revert _ => false end.

(** ** Unsigned 256-bit arithmetic *)

Definition MAX_UINT256 : Z := 2 ^ 256 - 1.

Definition checked_add (a b : Z) : result Z :=
  if a + b <=? MAX_UINT256 then Ok (a + b) else Revert (Panic 17).

(** ** The external engine *)

Record Engine := {
  (** [FHE.asEuint32(0)]: the handle of the canonical encrypted zero. *)
  asEuint32_0 : Z;
  (** [a.add(b)]: homomorphic addition of two [euint32] handles. *)
  fhe_add : Z -> Z -> Z;
  (** [FHE.isInitialized(v)]. *)
  isInitialized : Z -> bool;
  (** [keccak256(abi.encode(cts, addr))]. *)
  keccak_cts : list Z -> Z -> Z;
  (** [FHE.checkSignatures(requestId, cleartexts, proof)]. *)
  checkSignatures : Z -> list Byte.byte -> list Byte.byte -> bool;
  (** The address the decryption oracle sends its callback from. *)
  decryptionOracle : Z
}.

(** What a transaction brings with it: [msg.sender], [block.timestamp], and
    the identifier [FHE.requestDecryption] hands out if it is called. *)
Record Env := {
  msg_sender : Z;
  block_timestamp : Z;
  oracle_requestId : Z
}.

(** ** Storage *)

Record DecryptionContext := {
  batchId : Z;
  stateHash : Z;
  processed : bool
}.

Record State := {
  owner : Z;
  isProvider : gmap Z bool;
  paused : bool;
  cooldownSeconds : Z;
  lastSubmissionTime : gmap Z Z;
  lastDecryptionRequestTime : gmap Z Z;
  currentBatchId : Z;
  isBatchOpen : gmap Z bool;
  batchSubmissionCount : gmap Z Z;
  batchGeneticData : gmap (Z * Z) (list Z);
  decryptionContexts : gmap Z DecryptionContext
}.

Inductive Event :=
| OwnershipTransferred (previousOwner newOwner : Z)
| ProviderAdded (provider : Z)
| ProviderRemoved (provider : Z)
| PausedContract (account : Z)
| UnpausedContract (account : Z)
| CooldownSet (oldCooldownSeconds newCooldownSeconds : Z)
| BatchOpened (b : Z)
| BatchClosedEvent (b totalSubmissions : Z)
| GeneticDataSubmitted (provider b count : Z)
| DecryptionRequested (requestId b hash : Z)
| DecryptionCompleted (requestId b res : Z).

(** Reading a mapping: an absent key reads as the zero value. *)
Definition rd_bool (m : gmap Z bool) (k : Z) : bool := default false (m !! k).
Definition rd_uint (m : gmap Z Z) (k : Z) : Z := default 0 (m !! k).
Definition dataPoints (s : State) (b provider : Z) : list Z :=
  default [] (batchGeneticData s !! (b, provider)).
Definition zero_context : DecryptionContext :=
  {| batchId := 0; stateHash := 0; processed := false |}.
Definition rd_context (s : State) (requestId : Z) : DecryptionContext :=
  default zero_context (decryptionContexts s !! requestId).

(** Field updates. *)
Definition set_owner (s : State) (a : Z) : State :=
  {| owner := a; isProvider := isProvider s; paused := paused s;
     cooldownSeconds := cooldownSeconds s;
     lastSubmissionTime := lastSubmissionTime s;
     lastDecryptionRequestTime := lastDecryptionRequestTime s;
     currentBatchId := currentBatchId s; isBatchOpen := isBatchOpen s;
     batchSubmissionCount := batchSubmissionCount s;
     batchGeneticData := batchGeneticData s;
     decryptionContexts := decryptionContexts s |}.

Definition set_isProvider (s : State) (a : Z) (v : bool) : State :=
  {| owner := owner s; isProvider := <[a := v]> (isProvider s);
     paused := paused s; cooldownSeconds := cooldownSeconds s;
     lastSubmissionTime := lastSubmissionTime s;
     lastDecryptionRequestTime := lastDecryptionRequestTime s;
     currentBatchId := currentBatchId s; isBatchOpen := isBatchOpen s;
     batchSubmissionCount := batchSubmissionCount s;
     batchGeneticData := batchGeneticData s;
     decryptionContexts := decryptionContexts s |}.

Definition set_paused (s : State) (v : bool) : State :=
  {| owner := owner s; isProvider := isProvider s; paused := v;
     cooldownSeconds := cooldownSeconds s;
     lastSubmissionTime := lastSubmissionTime s;
     lastDecryptionRequestTime := lastDecryptionRequestTime s;
     currentBatchId := currentBatchId s; isBatchOpen := isBatchOpen s;
     batchSubmissionCount := batchSubmissionCount s;
     batchGeneticData := batchGeneticData s;
     decryptionContexts := decryptionContexts s |}.

Definition set_cooldownSeconds (s : State) (v : Z) : State :=
  {| owner := owner s; isProvider := isProvider s; paused := paused s;
     cooldownSeconds := v;
     lastSubmissionTime := lastSubmissionTime s;
     lastDecryptionRequestTime := lastDecryptionRequestTime s;
     currentBatchId := currentBatchId s; isBatchOpen := isBatchOpen s;
     batchSubmissionCount := batchSubmissionCount s;
     batchGeneticData := batchGeneticData s;
     decryptionContexts := decryptionContexts s |}.

Definition set_lastSubmissionTime (s : State) (a t : Z) : State :=
  {| owner := owner s; isProvider := isProvider s; paused := paused s;
     cooldownSeconds := cooldownSeconds s;
     lastSubmissionTime := <[a := t]> (lastSubmissionTime s);
     lastDecryptionRequestTime := lastDecryptionRequestTime s;
     currentBatchId := currentBatchId s; isBatchOpen := isBatchOpen s;
     batchSubmissionCount := batchSubmissionCount s;
     batchGeneticData := batchGeneticData s;
     decryptionContexts := decryptionContexts s |}.

Definition set_lastDecryptionRequestTime (s : State) (a t : Z) : State :=
  {| owner := owner s; isProvider := isProvider s; paused := paused s;
     cooldownSeconds := cooldownSeconds s;
     lastSubmissionTime := lastSubmissionTime s;
     lastDecryptionRequestTime := <[a := t]> (lastDecryptionRequestTime s);
     currentBatchId := currentBatchId s; isBatchOpen := isBatchOpen s;
     batchSubmissionCount := batchSubmissionCount s;
     batchGeneticData := batchGeneticData s;
     decryptionContexts := decryptionContexts s |}.

Definition set_currentBatchId (s : State) (v : Z) : State :=
  {| owner := owner s; isProvider := isProvider s; paused := paused s;
     cooldownSeconds := cooldownSeconds s;
     lastSubmissionTime := lastSubmissionTime s;
     lastDecryptionRequestTime := lastDecryptionRequestTime s;
     currentBatchId := v; isBatchOpen := isBatchOpen s;
     batchSubmissionCount := batchSubmissionCount s;
     batchGeneticData := batchGeneticData s;
     decryptionContexts := decryptionContexts s |}.

Definition set_isBatchOpen (s : State) (b : Z) (v : bool) : State :=
  {| owner := owner s; isProvider := isProvider s; paused := paused s;
     cooldownSeconds := cooldownSeconds s;
     lastSubmissionTime := lastSubmissionTime s;
     lastDecryptionRequestTime := lastDecryptionRequestTime s;
     currentBatchId := currentBatchId s;
     isBatchOpen := <[b := v]> (isBatchOpen s);
     batchSubmissionCount := batchSubmissionCount s;
     batchGeneticData := batchGeneticData s;
     decryptionContexts := decryptionContexts s |}.

Definition set_batchSubmissionCount (s : State) (b v : Z) : State :=
  {| owner := owner s; isProvider := isProvider s; paused := paused s;
     cooldownSeconds := cooldownSeconds s;
     lastSubmissionTime := lastSubmissionTime s;
     lastDecryptionRequestTime := lastDecryptionRequestTime s;
     currentBatchId := currentBatchId s; isBatchOpen := isBatchOpen s;
     batchSubmissionCount := <[b := v]> (batchSubmissionCount s);
     batchGeneticData := batchGeneticData s;
     decryptionContexts := decryptionContexts s |}.

Definition set_dataPoints (s : State) (b provider : Z) (l : list Z) : State :=
  {| owner := owner s; isProvider := isProvider s; paused := paused s;
     cooldownSeconds := cooldownSeconds s;
     lastSubmissionTime := lastSubmissionTime s;
     lastDecryptionRequestTime := lastDecryptionRequestTime s;
     currentBatchId := currentBatchId s; isBatchOpen := isBatchOpen s;
     batchSubmissionCount := batchSubmissionCount s;
     batchGeneticData := <[(b, provider) := l]> (batchGeneticData s);
     decryptionContexts := decryptionContexts s |}.

Definition set_context (s : State) (requestId : Z) (c : DecryptionContext)
  : State :=
  {| owner := owner s; isProvider := isProvider s; paused := paused s;
     cooldownSeconds := cooldownSeconds s;
     lastSubmissionTime := lastSubmissionTime s;
     lastDecryptionRequestTime := lastDecryptionRequestTime s;
     currentBatchId := currentBatchId s; isBatchOpen := isBatchOpen s;
     batchSubmissionCount := batchSubmissionCount s;
     batchGeneticData := batchGeneticData s;
     decryptionContexts := <[requestId := c]> (decryptionContexts s) |}.

(** The ledger state a call leaves behind: a revert rolls everything back. *)
Definition state_after (s : State) (r : result (State * list Event)) : State :=
  match r with
  | Ok (s', _) => s'
  | Revert _ => s
  end.

(** [abi.decode(cleartexts, (uint256))]: the first 32 bytes, big-endian;
    shorter input reverts. *)
Definition be_uint (bs : list Byte.byte) : Z :=
  fold_left (fun acc b => acc * 256 + Z.of_N (Byte.to_N b)) bs 0.

Definition abi_decode_uint256 (bs : list Byte.byte) : result Z :=
  if (32 <=? Z.of_nat (length bs)) then Ok (be_uint (firstn 32 bs))
  else Revert AbiDecodeFailure.

(** ** The contract *)

Section Contract.

Context (E : Engine).
(** [address(this)]. *)
Context (this : Z).

(** *** Modifiers *)

Definition onlyOwner (env : Env) (s : State) : result unit :=
  require (msg_sender env =? owner s) NotOwner.

Definition onlyProvider (env : Env) (s : State) : result unit :=
  require (rd_bool (isProvider s) (msg_sender env)) NotProvider.

Definition whenNotPaused (s : State) : result unit :=
  require (negb (paused s)) Paused.

Definition respectSubmissionCooldown (env : Env) (s : State) : result unit :=
  limit <- checked_add (rd_uint (lastSubmissionTime s) (msg_sender env))
                       (cooldownSeconds s) ;;
  require (negb (block_timestamp env <? limit)) CooldownActive.

Definition respectDecryptionCooldown (env : Env) (s : State) : result unit :=
  limit <- checked_add (rd_uint (lastDecryptionRequestTime s) (msg_sender env))
                       (cooldownSeconds s) ;;
  require (negb (block_timestamp env <? limit)) CooldownActive.

(** *** Administration *)

Definition constructor (env : Env) : State :=
  {| owner := msg_sender env;
     isProvider := {[ msg_sender env := true ]};
     paused := false;
     cooldownSeconds := 60;
     lastSubmissionTime := ∅;
     lastDecryptionRequestTime := ∅;
     currentBatchId := 0;
     isBatchOpen := ∅;
     batchSubmissionCount := ∅;
     batchGeneticData := ∅;
     decryptionContexts := ∅ |}.

Definition transferOwnership (env : Env) (s : State) (newOwner : Z)
  : result (State * list Event) :=
  onlyOwner env s ;;;
  Ok (set_owner s newOwner, [OwnershipTransferred (owner s) newOwner]).

Definition addProvider (env : Env) (s : State) (provider : Z)
  : result (State * list Event) :=
  onlyOwner env s ;;;
  if negb (rd_bool (isProvider s) provider)
  then Ok (set_isProvider s provider true, [ProviderAdded provider])
  else Ok (s, []).

Definition removeProvider (env : Env) (s : State) (provider : Z)
  : result (State * list Event) :=
  onlyOwner env s ;;;
  if rd_bool (isProvider s) provider
  then Ok (set_isProvider s provider false, [ProviderRemoved provider])
  else Ok (s, []).

Definition pause (env : Env) (s : State) : result (State * list Event) :=
  onlyOwner env s ;;;
  whenNotPaused s ;;;
  Ok (set_paused s true, [PausedContract (msg_sender env)]).

Definition unpause (env : Env) (s : State) : result (State * list Event) :=
  onlyOwner env s ;;;
  Ok (set_paused s false, [UnpausedContract (msg_sender env)]).

Definition setCooldownSeconds (env : Env) (s : State) (newCooldownSeconds : Z)
  : result (State * list Event) :=
  onlyOwner env s ;;;
  require (negb (newCooldownSeconds =? 0)) InvalidCooldown ;;;
  Ok (set_cooldownSeconds s newCooldownSeconds,
      [CooldownSet (cooldownSeconds s) newCooldownSeconds]).

(** *** Batches *)

Definition openBatch (env : Env) (s : State) : result (State * list Event) :=
  onlyOwner env s ;;;
  whenNotPaused s ;;;
  next <- checked_add (currentBatchId s) 1 ;;
  let s1 := set_currentBatchId s next in
  let s2 := set_isBatchOpen s1 next true in
  let s3 := set_batchSubmissionCount s2 next 0 in
  Ok (s3, [BatchOpened next]).

Definition closeBatch (env : Env) (s : State) (b : Z)
  : result (State * list Event) :=
  onlyOwner env s ;;;
  whenNotPaused s ;;;
  require (rd_bool (isBatchOpen s) b) BatchClosed ;;;
  Ok (set_isBatchOpen s b false,
      [BatchClosedEvent b (rd_uint (batchSubmissionCount s) b)]).

(** *** Submissions *)

Definition _initIfNeeded (val : Z) : Z :=
  if negb (isInitialized E val) then asEuint32_0 E else val.

(** The loop [for i: data.dataPoints.push(_initIfNeeded(_dataPoints[i]))]:
    [rest] is what is left of the calldata array, [stored] the storage
    array so far. *)
Fixpoint push_loop (rest stored : list Z) : list Z :=
  match rest with
  | [] => stored
  | x :: rest' => push_loop rest' (stored ++ [_initIfNeeded x])
  end.

Definition submitEncryptedGeneticData (env : Env) (s : State) (b : Z)
    (_dataPoints : list Z) : result (State * list Event) :=
  onlyProvider env s ;;;
  whenNotPaused s ;;;
  respectSubmissionCooldown env s ;;;
  require (rd_bool (isBatchOpen s) b) BatchClosed ;;;
  require (negb (Nat.eqb (length _dataPoints) 0)) EmptyBatch ;;;
  let s1 := set_lastSubmissionTime s (msg_sender env) (block_timestamp env) in
  (* delete data.dataPoints, then push every normalised point *)
  let s2 := set_dataPoints s1 b (msg_sender env) (push_loop _dataPoints []) in
  count <- checked_add (rd_uint (batchSubmissionCount s2) b) 1 ;;
  let s3 := set_batchSubmissionCount s2 b count in
  Ok (s3, [GeneticDataSubmitted (msg_sender env) b
             (Z.of_nat (length _dataPoints))]).

(** *** Aggregation *)

(** The summing loop shared by the request and by the callback: the pair is
    ([encryptedSum], [initialized]). *)
Fixpoint sum_loop (points : list Z) (acc : Z * bool) : Z * bool :=
  match points with
  | [] => acc
  | dataPoint :: points' =>
      sum_loop points'
        (if negb (snd acc) then (dataPoint, true)
         else (fhe_add E (fst acc) dataPoint, true))
  end.

Definition aggregate (points : list Z) : Z :=
  let acc := sum_loop points (asEuint32_0 E, false) in
  if negb (snd acc) then asEuint32_0 E else fst acc.

Definition _hashCiphertexts (cts : list Z) : Z := keccak_cts E cts this.

Definition requestResearchCalculation (env : Env) (s : State) (b : Z)
  : result (State * list Event) :=
  onlyProvider env s ;;;
  whenNotPaused s ;;;
  respectDecryptionCooldown env s ;;;
  require (negb (rd_uint (batchSubmissionCount s) b =? 0)) EmptyBatch ;;;
  let s1 :=
    set_lastDecryptionRequestTime s (msg_sender env) (block_timestamp env) in
  let encryptedSum := aggregate (dataPoints s1 b (msg_sender env)) in
  let cts := [encryptedSum] in
  let hash := _hashCiphertexts cts in
  let requestId := oracle_requestId env in
  let s2 := set_context s1 requestId
              {| batchId := b; stateHash := hash; processed := false |} in
  Ok (s2, [DecryptionRequested requestId b hash]).

(** *** The decryption callback *)

Definition _reconstructAndHashCleartextsForCallback (s : State) (b : Z) : Z :=
  let dataProvider := owner s in
  let reconstructedEncryptedSum := aggregate (dataPoints s b dataProvider) in
  _hashCiphertexts [reconstructedEncryptedSum].

Definition myCallback (env : Env) (s : State) (requestId : Z)
    (cleartexts proof : list Byte.byte) : result (State * list Event) :=
  require (negb (processed (rd_context s requestId))) ReplayAttempt ;;;
  let ctx := rd_context s requestId in
  let currentHash := _reconstructAndHashCleartextsForCallback s (batchId ctx) in
  require (currentHash =? stateHash ctx) StateMismatch ;;;
  require (checkSignatures E requestId cleartexts proof) InvalidProof ;;;
  res <- abi_decode_uint256 cleartexts ;;
  let s1 := set_context s requestId
              {| batchId := batchId ctx; stateHash := stateHash ctx;
                 processed := true |} in
  Ok (s1, [DecryptionCompleted requestId (batchId ctx) res]).

End Contract.

(** ** Transactions and reachable states *)

Inductive Call :=
| CallTransferOwnership (newOwner : Z)
| CallAddProvider (provider : Z)
| CallRemoveProvider (provider : Z)
| CallPause
| CallUnpause
| CallSetCooldownSeconds (newCooldownSeconds : Z)
| CallOpenBatch
| CallCloseBatch (b : Z)
| CallSubmit (b : Z) (points : list Z)
| CallRequest (b : Z)
| CallCallback (requestId : Z) (cleartexts proof : list Byte.byte).

Definition exec (E : Engine) (this : Z) (env : Env) (s : State) (c : Call)
  : result (State * list Event) :=
  match c with
  | CallTransferOwnership a => transferOwnership env s a
  | CallAddProvider a => addProvider env s a
  | CallRemoveProvider a => removeProvider env s a
  | CallPause => pause env s
  | CallUnpause => unpause env s
  | CallSetCooldownSeconds n => setCooldownSeconds env s n
  | CallOpenBatch => openBatch env s
  | CallCloseBatch b => closeBatch env s b
  | CallSubmit b l => submitEncryptedGeneticData E env s b l
  | CallRequest b => requestResearchCalculation E this env s b
  | CallCallback r c p => myCallback E this env s r c p
  end.

(** One transaction: the state it leaves. *)
Definition step (E : Engine) (this : Z) (s : State) (tx : Env * Call) : State :=
  state_after s (exec E this (fst tx) s (snd tx)).

(** A sequence of transactions from a given state. *)
Definition run (E : Engine) (this : Z) (s : State) (txs : list (Env * Call))
  : State :=
  fold_left (step E this) txs s.

Inductive reachable (E : Engine) (this : Z) : State -> Prop :=
| reachable_deployed env : reachable E this (constructor env)
| reachable_step s tx :
    reachable E this s -> reachable E this (step E this s tx).

(** The two classes of rate-limited calls. *)
Inductive GatedClass := Submission | DecryptionRequest.

Definition lastCallTime (cls : GatedClass) (s : State) (a : Z) : Z :=
  match cls with
  | Submission => rd_uint (lastSubmissionTime s) a
  | DecryptionRequest => rd_uint (lastDecryptionRequestTime s) a
  end.

Definition cooldown_gate (cls : GatedClass) (env : Env) (s : State)
  : result unit :=
  match cls with
  | Submission => respectSubmissionCooldown env s
  | DecryptionRequest => respectDecryptionCooldown env s
  end.

Definition gated_call (E : Engine) (this : Z) (cls : GatedClass) (env : Env)
    (s : State) (b : Z) (points : list Z) : result (State * list Event) :=
  match cls with
  | Submission => submitEncryptedGeneticData E env s b points
  | DecryptionRequest => requestResearchCalculation E this env s b
  end.

(** ** A test double of the engine

    Handles are small integers; [0] is the uninitialised handle, as in the
    library, where [isInitialized] compares the unwrapped handle with zero.
    The digest is a positional encoding of the handle list and the
    address, never zero. A proof is accepted when it repeats the cleartext
    it signs. *)

Definition mock_keccak (cts : list Z) (addr : Z) : Z :=
  1 + fold_left (fun acc h => acc * 1000003 + h + 1) cts (addr + 1).

Definition bytes_eqb (a b : list Byte.byte) : bool :=
  bool_decide (map Byte.to_N a = map Byte.to_N b).

Definition MockEngine : Engine :=
  {| asEuint32_0 := 1;
     fhe_add := fun a b => 1000 * a + b + 7;
     isInitialized := fun v => negb (v =? 0);
     keccak_cts := mock_keccak;
     checkSignatures := fun _ cleartexts proof => bytes_eqb cleartexts proof;
     decryptionOracle := 900 |}.

Definition mock_this : Z := 4096.

Definition tx (sender now requestId : Z) (c : Call) : Env * Call :=
  ({| msg_sender := sender; block_timestamp := now;
      oracle_requestId := requestId |}, c).

(** A 32-byte cleartext encoding the number 12. *)
Definition cleartext12 : list Byte.byte :=
  repeat Byte.x00 31 ++ [Byte.x0c].


(** ** Scenarios on the test double

    Account [1] deploys the contract (and so is owner and provider);
    account [2] is a provider added later; batch [1] is the first batch. *)

Definition deployed : State :=
  constructor {| msg_sender := 1; block_timestamp := 10;
                 oracle_requestId := 0 |}.

Definition anyone (sender now : Z) : Env :=
  {| msg_sender := sender; block_timestamp := now; oracle_requestId := 0 |}.

(** Provider [2] has submitted [[5]] into the open batch [1]; the owner has
    submitted nothing. *)
Definition provider_submitted : State :=
  run MockEngine mock_this deployed
    [ tx 1 20 0 (CallAddProvider 2);
      tx 1 30 0 CallOpenBatch;
      tx 2 100 0 (CallSubmit 1 [5]) ].

(** ... and then asks for the aggregate; the oracle names the request [77]. *)
Definition provider_requested : State :=
  step MockEngine mock_this provider_submitted (tx 2 200 77 (CallRequest 1)).

(** Owner and provider [2] have both submitted [[5]] into batch [1]. *)
Definition both_submitted : State :=
  run MockEngine mock_this deployed
    [ tx 1 20 0 (CallAddProvider 2);
      tx 1 30 0 CallOpenBatch;
      tx 1 100 0 (CallSubmit 1 [5]);
      tx 2 100 0 (CallSubmit 1 [5]) ].

(** Provider [2] requests (request [78]) and then overwrites its submission. *)
Definition provider_overwrote : State :=
  run MockEngine mock_this both_submitted
    [ tx 2 200 78 (CallRequest 1);
      tx 2 300 0 (CallSubmit 1 [9]) ].

(** The owner has submitted into batch [1] and then closed it. *)
Definition batch_closed : State :=
  run MockEngine mock_this deployed
    [ tx 1 30 0 CallOpenBatch;
      tx 1 100 0 (CallSubmit 1 [5]);
      tx 1 110 0 (CallCloseBatch 1) ].

(** The owner has submitted into batch [1] and requested its own aggregate
    (request [79]). *)
Definition owner_requested : State :=
  run MockEngine mock_this deployed
    [ tx 1 30 0 CallOpenBatch;
      tx 1 100 0 (CallSubmit 1 [5; 0; 6]);
      tx 1 200 79 (CallRequest 1) ].

(** The owner has submitted into batch [1] at time 100 and requested its
    aggregate at time 150 (request [90]), and has then set the cooldown to
    the largest [uint256]. *)
Definition cooldown_maximal : State :=
  run MockEngine mock_this deployed
    [ tx 1 30 0 CallOpenBatch;
      tx 1 100 0 (CallSubmit 1 [5]);
      tx 1 150 90 (CallRequest 1);
      tx 1 160 0 (CallSetCooldownSeconds MAX_UINT256) ].

(** A batch identifier is known once [openBatch] has allocated it. *)
Definition batch_known (s : State) (b : Z) : Prop :=
  1 <= b <= currentBatchId s.

Record Inv (s : State) : Prop := {
  inv_current : 0 <= currentBatchId s;
  inv_open : forall b, rd_bool (isBatchOpen s) b = true -> batch_known s b;
  inv_count : forall b,
    rd_uint (batchSubmissionCount s) b <> 0 -> batch_known s b;
  inv_data : forall b p, dataPoints s b p <> [] -> batch_known s b
}.

(** ** Classes of entry points *)

(** The entry points that carry [onlyOwner]. *)
Definition is_admin_call (c : Call) : bool :=
  match c with
  | CallTransferOwnership _ | CallAddProvider _ | CallRemoveProvider _
  | CallPause | CallUnpause | CallSetCooldownSeconds _
  | CallOpenBatch | CallCloseBatch _ => true
  | CallSubmit _ _ | CallRequest _ | CallCallback _ _ _ => false
  end.

(** The entry points that carry [onlyProvider]. *)
Definition is_provider_call (c : Call) : bool :=
  match c with
  | CallSubmit _ _ | CallRequest _ => true
  | _ => false
  end.

(** The entry points that carry [whenNotPaused]. *)
Definition is_pausable_call (c : Call) : bool :=
  match c with
  | CallPause | CallOpenBatch | CallCloseBatch _
  | CallSubmit _ _ | CallRequest _ => true
  | _ => false
  end.

(** What the caller of a transaction observes: the error, or the events. *)
Definition outcome (r : result (State * list Event)) : Error + list Event :=
  match r with
  | Ok (_, events) => inr events
  | Revert e => inl e
  end.

(** The number of accepted [submit] calls into batch [b] along a sequence
    of transactions started in [s]. *)
Fixpoint accepted_submits (E : Engine) (this : Z) (s : State)
    (txs : list (Env * Call)) (b : Z) : Z :=
  match txs with
  | [] => 0
  | t :: txs' =>
      (match snd t with
       | CallSubmit b' _ =>
           if (b' =? b) && is_ok (exec E this (fst t) s (snd t)) then 1 else 0
       | _ => 0
       end)
      + accepted_submits E this (step E this s t) txs' b
  end.

(** A handle as [submit] stores it: initialised, or the encrypted zero. *)
Definition normalized (E : Engine) (h : Z) : Prop :=
  isInitialized E h = true \/ h = asEuint32_0 E.

(** What every reachable ledger state satisfies beyond [Inv]. *)
Record StoreInv (E : Engine) (s : State) : Prop := {
  sinv_cooldown : cooldownSeconds s <> 0;
  sinv_count : forall b, 0 <= rd_uint (batchSubmissionCount s) b;
  sinv_entries : forall b p l,
    batchGeneticData s !! (b, p) = Some l ->
    l <> [] /\ Forall (normalized E) l /\
    1 <= rd_uint (batchSubmissionCount s) b;
  sinv_contexts : forall requestId c,
    decryptionContexts s !! requestId = Some c ->
    processed c = false ->
    batch_known s (batchId c) /\
    1 <= rd_uint (batchSubmissionCount s) (batchId c)
}.

(** ** The dashboard (App.tsx)

    The pure parts of the front end: the mock encryption helpers, the
    list updates the handlers compute before writing the list back, and
    the search filter. Numbers that are identifiers, counts or rewards are
    integers. The platform's string and number primitives ([toString],
    [parseFloat], [btoa], [atob], [toLowerCase]) and the values drawn from
    the clock and from [Math.random] are parameters. *)

Module Frontend.

Import Stdlib.Strings.String.

Section Helpers.

(** The [number] type with its printing and parsing, and base64. [atob]
    throws on input that is not base64: [None]. *)
Context {number : Type} (zero : number).
Context (toString : number -> string) (parseFloat : string -> number).
Context (btoa : string -> string) (atob : string -> option string).

Definition FHEEncryptNumber (value : number) : string :=
  String.append "FHE-"%string (btoa (toString value)).

(** [encryptedData.substring(4)]: everything from index 4 on. *)
Definition substring_from (n : nat) (s : string) : string :=
  String.substring n (String.length s - n) s.

Definition FHEDecryptNumber (encryptedData : string) : option number :=
  if String.prefix "FHE-"%string encryptedData
  then match atob (substring_from 4 encryptedData) with
       | Some decoded => Some (parseFloat decoded)
       | None => None
       end
  else Some zero.

End Helpers.

Record GeneData := {
  data_id : Z;
  ownerId : string;
  encryptedGenome : string;
  researchQueries : list string;
  rewardAmount : Z;
  timestamp : Z;
  isAuthorized : bool
}.

(** [uploadGeneData]: the list written back, [[...geneDataList, newGeneData]]. *)
Definition uploadGeneData (geneDataList : list GeneData) (address : string)
    (encryptedData : string) (now : Z) : list GeneData :=
  let newGeneData :=
    {| data_id := Z.of_nat (List.length geneDataList) + 1;
       ownerId := address;
       encryptedGenome := encryptedData;
       researchQueries := [];
       rewardAmount := 0;
       timestamp := now;
       isAuthorized := false |} in
  geneDataList ++ [newGeneData].

(** [authorizeResearch]: the list written back. *)
Definition authorizeResearch (geneDataList : list GeneData) (dataId : Z)
    (researchId : string) : list GeneData :=
  map (fun data =>
         if data_id data =? dataId
         then {| data_id := data_id data;
                 ownerId := ownerId data;
                 encryptedGenome := encryptedGenome data;
                 researchQueries := researchQueries data ++ [researchId];
                 rewardAmount := rewardAmount data;
                 timestamp := timestamp data;
                 isAuthorized := true |}
         else data)
      geneDataList.

(** [executeResearchQuery]: the list written back. The callback of [map]
    draws [Math.floor(Math.random() * 10)] afresh for every record whose
    identifier matches; [roll i] is the draw made at position [i]. *)
Definition executeResearchQuery (geneDataList : list GeneData) (dataId : Z)
    (query : string) (roll : nat -> Z) : list GeneData :=
  imap (fun i data =>
          if data_id data =? dataId
          then {| data_id := data_id data;
                  ownerId := ownerId data;
                  encryptedGenome := encryptedGenome data;
                  researchQueries := researchQueries data ++ [query];
                  rewardAmount := rewardAmount data + roll i + 1;
                  timestamp := timestamp data;
                  isAuthorized := isAuthorized data |}
          else data)
       geneDataList.

(** The three handlers that rewrite the stored list. *)
Inductive Action :=
| Upload (address encryptedData : string) (now : Z)
| Authorize (dataId : Z) (researchId : string)
| Query (dataId : Z) (query : string) (roll : nat -> Z).

Definition apply_action (geneDataList : list GeneData) (a : Action)
  : list GeneData :=
  match a with
  | Upload address encryptedData now =>
      uploadGeneData geneDataList address encryptedData now
  | Authorize dataId researchId =>
      authorizeResearch geneDataList dataId researchId
  | Query dataId query roll =>
      executeResearchQuery geneDataList dataId query roll
  end.

(** [Math.floor(Math.random() * 10)] lies in [0, 9]. *)
Definition valid_action (a : Action) : Prop :=
  match a with
  | Query _ _ roll => forall i, 0 <= roll i <= 9
  | _ => True
  end.

(** [s.includes(t)]. *)
Definition includes (s t : string) : bool :=
  match String.index 0 t s with
  | Some _ => true
  | None => false
  end.

Section Filter.

Context (toString : Z -> string) (toLowerCase : string -> string).

Definition filteredData (geneDataList : list GeneData) (searchTerm : string)
  : list GeneData :=
  List.filter
    (fun data =>
       includes (toString (data_id data)) searchTerm
       || includes (toLowerCase (ownerId data)) (toLowerCase searchTerm))
    geneDataList.

End Filter.

(** One record of the list being a later version of another. *)
Definition evolves (d d' : GeneData) : Prop :=
  data_id d' = data_id d /\
  ownerId d' = ownerId d /\
  encryptedGenome d' = encryptedGenome d /\
  timestamp d' = timestamp d /\
  (isAuthorized d = true -> isAuthorized d' = true) /\
  rewardAmount d <= rewardAmount d' /\
  (exists more, researchQueries d' = researchQueries d ++ more).

(** A test double of the primitives: decimal printing and parsing of
    naturals, and the identity in place of base64. *)
Definition mock_toString (n : N) : string :=
  DecimalString.NilZero.string_of_uint (N.to_uint n).

Definition mock_parseFloat (s : string) : N :=
  match DecimalString.NilZero.uint_of_string s with
  | Some d => N.of_uint d
  | None => 0%N
  end.

Definition mock_btoa (s : string) : string := s.

Definition mock_atob (s : string) : option string := Some s.

End Frontend.

(** ** Basic facts about the embedding *)

Lemma rd_uint_insert_eq (m : gmap Z Z) (k v : Z) :
  rd_uint (<[k := v]> m) k = v.
Proof. unfold rd_uint. now rewrite lookup_insert_eq. Qed.

Lemma rd_uint_insert_ne (m : gmap Z Z) (k k' v : Z) :
  k <> k' -> rd_uint (<[k := v]> m) k' = rd_uint m k'.
Proof. intros H. unfold rd_uint. now rewrite lookup_insert_ne. Qed.

Lemma rd_bool_insert_eq (m : gmap Z bool) (k : Z) (v : bool) :
  rd_bool (<[k := v]> m) k = v.
Proof. unfold rd_bool. now rewrite lookup_insert_eq. Qed.

Lemma rd_bool_insert_ne (m : gmap Z bool) (k k' : Z) (v : bool) :
  k <> k' -> rd_bool (<[k := v]> m) k' = rd_bool m k'.
Proof. intros H. unfold rd_bool. now rewrite lookup_insert_ne. Qed.

Lemma checked_add_ok (a b : Z) :
  a + b <= MAX_UINT256 -> checked_add a b = Ok (a + b).
Proof.
  intros H. unfold checked_add.
  destruct (Z.leb_spec (a + b) MAX_UINT256); [reflexivity | lia].
Qed.

Lemma checked_add_panic (a b : Z) :
  MAX_UINT256 < a + b -> checked_add a b = Revert (Panic 17).
Proof.
  intros H. unfold checked_add.
  destruct (Z.leb_spec (a + b) MAX_UINT256); [lia | reflexivity].
Qed.

Section Facts.

Context (E : Engine) (this : Z).

(** The push loop appends the normalised points, in order. *)
Lemma push_loop_app (rest stored : list Z) :
  push_loop E rest stored = stored ++ map (_initIfNeeded E) rest.
Proof.
  revert stored. induction rest as [|x rest IH]; intros stored; simpl.
  - now rewrite app_nil_r.
  - rewrite IH, <- app_assoc. reflexivity.
Qed.

Lemma push_loop_map (points : list Z) :
  push_loop E points [] = map (_initIfNeeded E) points.
Proof. apply push_loop_app. Qed.

(** Once the sum is initialised the loop is a left fold of [fhe_add]. *)
Lemma sum_loop_initialized (points : list Z) (sum : Z) :
  sum_loop E points (sum, true) = (fold_left (fhe_add E) points sum, true).
Proof.
  revert sum. induction points as [|d points IH]; intros sum; simpl.
  - reflexivity.
  - apply IH.
Qed.

Lemma aggregate_nil : aggregate E [] = asEuint32_0 E.
Proof. reflexivity. Qed.

(** Left to right, seeded with the first element. *)
Lemma aggregate_cons (d : Z) (points : list Z) :
  aggregate E (d :: points) = fold_left (fhe_add E) points d.
Proof.
  unfold aggregate. simpl. rewrite sum_loop_initialized. reflexivity.
Qed.

(** The cooldown gates, when the deadline fits in a [uint256]. *)
Lemma cooldown_gate_spec (cls : GatedClass) (env : Env) (s : State) :
  lastCallTime cls s (msg_sender env) + cooldownSeconds s <= MAX_UINT256 ->
  cooldown_gate cls env s =
    if block_timestamp env
         <? lastCallTime cls s (msg_sender env) + cooldownSeconds s
    then Revert CooldownActive else Ok tt.
Proof.
  intros H. destruct cls; simpl in *;
    unfold respectSubmissionCooldown, respectDecryptionCooldown;
    rewrite checked_add_ok by assumption; simpl;
    now destruct (_ <? _).
Qed.

Lemma cooldown_gate_overflow (cls : GatedClass) (env : Env) (s : State) :
  MAX_UINT256 < lastCallTime cls s (msg_sender env) + cooldownSeconds s ->
  cooldown_gate cls env s = Revert (Panic 17).
Proof.
  intros H. destruct cls; simpl in *;
    unfold respectSubmissionCooldown, respectDecryptionCooldown;
    now rewrite checked_add_panic by assumption.
Qed.

(** [submitEncryptedGeneticData] as a decision list. *)
Lemma submit_cases (env : Env) (s : State) (b : Z) (points : list Z) :
  submitEncryptedGeneticData E env s b points =
    if negb (rd_bool (isProvider s) (msg_sender env)) then Revert NotProvider
    else if paused s then Revert Paused
    else match respectSubmissionCooldown env s with
         | Revert e => Revert e
         | Ok _ =>
           if negb (rd_bool (isBatchOpen s) b) then Revert BatchClosed
           else match points with
                | [] => Revert EmptyBatch
                | _ :: _ =>
                  match checked_add (rd_uint (batchSubmissionCount s) b) 1 with
                  | Revert e => Revert e
                  | Ok count =>
                    Ok (set_batchSubmissionCount
                          (set_dataPoints
                             (set_lastSubmissionTime s (msg_sender env)
                                (block_timestamp env))
                             b (msg_sender env)
                             (map (_initIfNeeded E) points))
                          b count,
                        [GeneticDataSubmitted (msg_sender env) b
                           (Z.of_nat (length points))])
                  end
                end
         end.
Proof.
  unfold submitEncryptedGeneticData, onlyProvider, whenNotPaused.
  destruct (rd_bool (isProvider s) (msg_sender env)); simpl; [|reflexivity].
  destruct (paused s); simpl; [reflexivity|].
  destruct (respectSubmissionCooldown env s) as [[]|e]; simpl; [|reflexivity].
  destruct (rd_bool (isBatchOpen s) b); simpl; [|reflexivity].
  destruct points as [|p points]; simpl; [reflexivity|].
  rewrite push_loop_app. reflexivity.
Qed.

(** [requestResearchCalculation] as a decision list. *)
Lemma request_cases (env : Env) (s : State) (b : Z) :
  requestResearchCalculation E this env s b =
    if negb (rd_bool (isProvider s) (msg_sender env)) then Revert NotProvider
    else if paused s then Revert Paused
    else match respectDecryptionCooldown env s with
         | Revert e => Revert e
         | Ok _ =>
           if rd_uint (batchSubmissionCount s) b =? 0 then Revert EmptyBatch
           else
             let hash :=
               keccak_cts E [aggregate E (dataPoints s b (msg_sender env))]
                 this in
             Ok (set_context
                   (set_lastDecryptionRequestTime s (msg_sender env)
                      (block_timestamp env))
                   (oracle_requestId env)
                   {| batchId := b; stateHash := hash; processed := false |},
                 [DecryptionRequested (oracle_requestId env) b hash])
         end.
Proof.
  unfold requestResearchCalculation, onlyProvider, whenNotPaused.
  destruct (rd_bool (isProvider s) (msg_sender env)); simpl; [|reflexivity].
  destruct (paused s); simpl; [reflexivity|].
  destruct (respectDecryptionCooldown env s) as [[]|e]; simpl; [|reflexivity].
  destruct (rd_uint (batchSubmissionCount s) b =? 0); reflexivity.
Qed.

(** [myCallback] as a decision list; the caller and the time do not occur. *)
Lemma callback_cases (env : Env) (s : State) (requestId : Z)
    (cleartexts proof : list Byte.byte) :
  myCallback E this env s requestId cleartexts proof =
    let ctx := rd_context s requestId in
    if processed ctx then Revert ReplayAttempt
    else if negb (keccak_cts E
                    [aggregate E (dataPoints s (batchId ctx) (owner s))] this
                  =? stateHash ctx)
    then Revert StateMismatch
    else if negb (checkSignatures E requestId cleartexts proof)
    then Revert InvalidProof
    else if negb (32 <=? Z.of_nat (length cleartexts))
    then Revert AbiDecodeFailure
    else Ok (set_context s requestId
               {| batchId := batchId ctx; stateHash := stateHash ctx;
                  processed := true |},
             [DecryptionCompleted requestId (batchId ctx)
                (be_uint (firstn 32 cleartexts))]).
Proof.
  unfold myCallback, _reconstructAndHashCleartextsForCallback,
    _hashCiphertexts, abi_decode_uint256.
  cbv zeta.
  destruct (processed (rd_context s requestId)); simpl; [reflexivity|].
  destruct (_ =? stateHash _); simpl; [|reflexivity].
  destruct (checkSignatures E requestId cleartexts proof); simpl;
    [|reflexivity].
  destruct (32 <=? _); reflexivity.
Qed.

End Facts.

(** ** Submissions *)

(** C5, as the code has it. [submit] goes through its checks in order and
    the first one that fails decides the error: [NotProvider], [Paused],
    the cooldown, [BatchClosed], [EmptyBatch]. The cooldown check adds
    [lastSubmissionTime + cooldownSeconds] in checked [uint256] arithmetic:
    when the sum does not fit the call reverts with the arithmetic panic
    (0x11) instead of [CooldownActive], and so does the counter increment
    at the largest [uint256]. The call succeeds exactly when the caller is
    an authorized provider, the system is unpaused, the deadline fits and
    has passed, the batch is open, the handle list is non-empty and the
    counter has room; a failed call changes no state. *)
Theorem C5_submit_outcome_by_first_failed_check (E : Engine) (env : Env)
    (s : State) (b : Z) (points : list Z) :
  let r := submitEncryptedGeneticData E env s b points in
  let deadline :=
    rd_uint (lastSubmissionTime s) (msg_sender env) + cooldownSeconds s in
  let authorized := rd_bool (isProvider s) (msg_sender env) = true in
  let unpaused := paused s = false in
  let fits := deadline <= MAX_UINT256 in
  let elapsed := deadline <= block_timestamp env in
  let open := rd_bool (isBatchOpen s) b = true in
  let nonempty := points <> [] in
  let room := rd_uint (batchSubmissionCount s) b < MAX_UINT256 in
  (is_ok r = true <->
     authorized /\ unpaused /\ fits /\ elapsed /\ open /\ nonempty /\ room) /\
  (~ authorized -> r = Revert NotProvider) /\
  (authorized -> ~ unpaused -> r = Revert Paused) /\
  (authorized -> unpaused -> ~ fits -> r = Revert (Panic 17)) /\
  (authorized -> unpaused -> fits -> ~ elapsed -> r = Revert CooldownActive) /\
  (authorized -> unpaused -> fits -> elapsed -> ~ open ->
     r = Revert BatchClosed) /\
  (authorized -> unpaused -> fits -> elapsed -> open -> ~ nonempty ->
     r = Revert EmptyBatch) /\
  (authorized -> unpaused -> fits -> elapsed -> open -> nonempty -> ~ room ->
     r = Revert (Panic 17)) /\
  (is_ok r = false -> state_after s r = s).
Proof.
  cbv zeta. rewrite submit_cases.
  destruct (rd_bool (isProvider s) (msg_sender env)); simpl.
  2: { repeat split; try tauto; try discriminate; intuition discriminate. }
  destruct (paused s); simpl.
  { repeat split; try tauto; try discriminate; intuition discriminate. }
  destruct (Z.le_gt_cases
              (rd_uint (lastSubmissionTime s) (msg_sender env)
               + cooldownSeconds s) MAX_UINT256) as [Hfit|Hover].
  2: { pose proof (cooldown_gate_overflow Submission env s Hover) as Hgate.
       simpl in Hgate. rewrite Hgate.
       repeat split; try tauto; try discriminate; try lia;
         intuition (try discriminate; try lia). }
  pose proof (cooldown_gate_spec Submission env s Hfit) as Hgate.
  simpl in Hgate. rewrite Hgate. clear Hgate.
  destruct (Z.ltb_spec (block_timestamp env)
              (rd_uint (lastSubmissionTime s) (msg_sender env)
               + cooldownSeconds s)) as [Hlt|Hge]; simpl.
  { repeat split; try tauto; try discriminate; try lia;
      intuition (try discriminate; try lia). }
  destruct (rd_bool (isBatchOpen s) b); simpl.
  2: { repeat split; try tauto; try discriminate; try lia;
         intuition (try discriminate; try lia). }
  destruct points as [|p points]; simpl.
  { repeat split; try tauto; try discriminate; try lia;
      intuition (try discriminate; try lia; try congruence). }
  destruct (Z.lt_ge_cases (rd_uint (batchSubmissionCount s) b) MAX_UINT256)
    as [Hroom|Hfull].
  - rewrite checked_add_ok by lia.
    repeat split; try tauto; try discriminate; try lia;
      intuition (try discriminate; try lia; try congruence).
  - rewrite checked_add_panic by lia.
    repeat split; try tauto; try discriminate; try lia;
      intuition (try discriminate; try lia; try congruence).
Qed.

Lemma C5_submit_outcome_by_first_failed_check_witness :
  (is_ok (submitEncryptedGeneticData MockEngine (anyone 2 300)
            both_submitted 1 [9]) = true <->
     rd_bool (isProvider both_submitted) 2 = true /\
     paused both_submitted = false /\
     rd_uint (lastSubmissionTime both_submitted) 2
       + cooldownSeconds both_submitted <= MAX_UINT256 /\
     rd_uint (lastSubmissionTime both_submitted) 2
       + cooldownSeconds both_submitted <= 300 /\
     rd_bool (isBatchOpen both_submitted) 1 = true /\
     [9] <> [] /\
     rd_uint (batchSubmissionCount both_submitted) 1 < MAX_UINT256) /\
  submitEncryptedGeneticData MockEngine (anyone 2 159) both_submitted 1 [9]
    = Revert CooldownActive /\
  submitEncryptedGeneticData MockEngine (anyone 1 200) cooldown_maximal 1 [9]
    = Revert (Panic 17).
Proof.
  destruct (C5_submit_outcome_by_first_failed_check MockEngine (anyone 2 300)
              both_submitted 1 [9]) as (Hiff & _).
  destruct (C5_submit_outcome_by_first_failed_check MockEngine (anyone 2 159)
              both_submitted 1 [9]) as (_ & _ & _ & _ & Hcool & _).
  destruct (C5_submit_outcome_by_first_failed_check MockEngine (anyone 1 200)
              cooldown_maximal 1 [9]) as (_ & _ & _ & Hpanic & _).
  split; [exact Hiff|]. split.
  - apply Hcool.
    + vm_compute. reflexivity.
    + vm_compute. reflexivity.
    + vm_compute. discriminate.
    + vm_compute. intros H. apply H. reflexivity.
  - apply Hpanic.
    + vm_compute. reflexivity.
    + vm_compute. reflexivity.
    + vm_compute. intros H. apply H. reflexivity.
Defined.

(** C5 as stated fails: after the owner has set the cooldown to the
    largest [uint256], an authorized provider that submitted at time 100
    submits again at time 200 into the open batch [1], the system
    unpaused. Its cooldown has not elapsed, and the call is rejected with
    the arithmetic panic, not with the cooldown error. *)
Lemma C5_cooldown_violation_raises_panic :
  rd_bool (isProvider cooldown_maximal) 1 = true /\
  paused cooldown_maximal = false /\
  block_timestamp (anyone 1 200)
    < rd_uint (lastSubmissionTime cooldown_maximal) 1
      + cooldownSeconds cooldown_maximal /\
  rd_bool (isBatchOpen cooldown_maximal) 1 = true /\
  submitEncryptedGeneticData MockEngine (anyone 1 200) cooldown_maximal 1 [9]
    = Revert (Panic 17) /\
  submitEncryptedGeneticData MockEngine (anyone 1 200) cooldown_maximal 1 [9]
    <> Revert CooldownActive.
Proof. vm_compute. repeat split; discriminate. Qed.

(** C6. An accepted submit stores, for (batch, caller), the input list
    with every handle the engine does not recognise as initialised replaced
    by the canonical encrypted zero, same length and order, whatever was
    stored before; and the batch's submission counter grows by exactly one. *)
Theorem C6_submit_stores_normalized_list (E : Engine) (env : Env)
    (s s' : State) (events : list Event) (b : Z) (points : list Z) :
  submitEncryptedGeneticData E env s b points = Ok (s', events) ->
  dataPoints s' b (msg_sender env)
    = map (fun h => if isInitialized E h then h else asEuint32_0 E) points /\
  length (dataPoints s' b (msg_sender env)) = length points /\
  rd_uint (batchSubmissionCount s') b
    = rd_uint (batchSubmissionCount s) b + 1.
Proof.
  rewrite submit_cases. intros H.
  destruct (negb (rd_bool (isProvider s) (msg_sender env))); [discriminate|].
  destruct (paused s); [discriminate|].
  destruct (respectSubmissionCooldown env s); [|discriminate].
  destruct (negb (rd_bool (isBatchOpen s) b)); [discriminate|].
  destruct points as [|p points]; [discriminate|].
  unfold checked_add in H.
  destruct (_ <=? MAX_UINT256); [|discriminate].
  injection H as <- _.
  assert (Hnorm : forall l,
    map (_initIfNeeded E) l
    = map (fun h => if isInitialized E h then h else asEuint32_0 E) l).
  { intros l. apply map_ext. intros h. unfold _initIfNeeded.
    now destruct (isInitialized E h). }
  unfold dataPoints. cbn [batchGeneticData batchSubmissionCount
    set_batchSubmissionCount set_dataPoints set_lastSubmissionTime].
  rewrite lookup_insert_eq, rd_uint_insert_eq.
  cbn [default].
  split; [|split].
  - rewrite <- Hnorm. reflexivity.
  - simpl. now rewrite length_map.
  - reflexivity.
Qed.

Lemma C6_submit_stores_normalized_list_witness :
  submitEncryptedGeneticData MockEngine (anyone 2 300) both_submitted 1
    [9; 0; 4]
    = Ok (step MockEngine mock_this both_submitted
            (tx 2 300 0 (CallSubmit 1 [9; 0; 4])),
          [GeneticDataSubmitted 2 1 3]) /\
  dataPoints (step MockEngine mock_this both_submitted
                (tx 2 300 0 (CallSubmit 1 [9; 0; 4]))) 1 2 = [9; 1; 4] /\
  rd_uint (batchSubmissionCount
             (step MockEngine mock_this both_submitted
                (tx 2 300 0 (CallSubmit 1 [9; 0; 4])))) 1 = 3.
Proof.
  assert (Hrun : submitEncryptedGeneticData MockEngine (anyone 2 300)
                   both_submitted 1 [9; 0; 4]
                 = Ok (step MockEngine mock_this both_submitted
                         (tx 2 300 0 (CallSubmit 1 [9; 0; 4])),
                       [GeneticDataSubmitted 2 1 3]))
    by (vm_compute; reflexivity).
  split; [exact Hrun|].
  destruct (C6_submit_stores_normalized_list MockEngine (anyone 2 300)
              both_submitted _ _ 1 [9; 0; 4] Hrun) as (Hdata & _ & Hcount).
  split.
  - exact Hdata.
  - rewrite Hcount. vm_compute. reflexivity.
Defined.

(** ** The cooldown gates *)

(** C8, as the code has it. For a caller that reaches the gate (an
    authorized provider, system unpaused) with last gated-call time [t]
    and cooldown [c], the call at time [now] is rejected with
    [CooldownActive], leaving the state as it was, exactly when
    [now < t + c] and [t + c] fits in a [uint256]; when [t + c] does not
    fit, the checked addition reverts the call with the arithmetic panic
    (0x11) instead, again leaving the state as it was; at [now = t + c]
    the gate admits the call. *)
Theorem C8_cooldown_boundary_checked (E : Engine) (this : Z)
    (cls : GatedClass) (env : Env) (s : State) (b : Z) (points : list Z) :
  rd_bool (isProvider s) (msg_sender env) = true ->
  paused s = false ->
  let t := lastCallTime cls s (msg_sender env) in
  let c := cooldownSeconds s in
  let now := block_timestamp env in
  let r := gated_call E this cls env s b points in
  (r = Revert CooldownActive <-> now < t + c /\ t + c <= MAX_UINT256) /\
  (MAX_UINT256 < t + c -> r = Revert (Panic 17)) /\
  (r = Revert CooldownActive \/ MAX_UINT256 < t + c -> state_after s r = s) /\
  (now = t + c -> now <= MAX_UINT256 ->
     cooldown_gate cls env s = Ok tt /\ r <> Revert CooldownActive).
Proof.
  intros Hprov Hrun. cbv zeta.
  assert (Hshape : gated_call E this cls env s b points
                   = match cooldown_gate cls env s with
                     | Revert e => Revert e
                     | Ok _ => gated_call E this cls env s b points
                     end
                   /\ (cooldown_gate cls env s = Ok tt ->
                       gated_call E this cls env s b points
                       <> Revert CooldownActive)).
  { destruct cls; simpl.
    - rewrite submit_cases, Hprov, Hrun. simpl.
      destruct (respectSubmissionCooldown env s) as [[]|e];
        split; try reflexivity; try discriminate.
      intros _.
      destruct (negb (rd_bool (isBatchOpen s) b)); [discriminate|].
      destruct points; [discriminate|].
      unfold checked_add. destruct (_ <=? MAX_UINT256); discriminate.
    - rewrite (request_cases E this), Hprov, Hrun. simpl.
      destruct (respectDecryptionCooldown env s) as [[]|e];
        split; try reflexivity; try discriminate.
      intros _. destruct (_ =? 0); discriminate. }
  destruct Hshape as [Hshape Hpass].
  destruct (Z.le_gt_cases
              (lastCallTime cls s (msg_sender env) + cooldownSeconds s)
              MAX_UINT256) as [Hfit|Hover].
  - pose proof (cooldown_gate_spec cls env s Hfit) as Hgate.
    destruct (Z.ltb_spec (block_timestamp env)
                (lastCallTime cls s (msg_sender env) + cooldownSeconds s))
      as [Hlt|Hge].
    + rewrite Hgate in Hshape.
      split; [split; [intros _; split; assumption | intros _; exact Hshape]|].
      split; [lia|]. split.
      * intros _. rewrite Hshape. reflexivity.
      * lia.
    + specialize (Hpass Hgate).
      split; [split; [intros H; contradiction | lia]|].
      split; [lia|]. split.
      * intros [H|H]; [contradiction|lia].
      * intros _ _. split; [exact Hgate|exact Hpass].
  - pose proof (cooldown_gate_overflow cls env s Hover) as Hgate.
    rewrite Hgate in Hshape.
    split; [split; [rewrite Hshape; discriminate | lia]|].
    split; [intros _; exact Hshape|]. split.
    + intros _. rewrite Hshape. reflexivity.
    + lia.
Qed.

Lemma C8_cooldown_boundary_checked_witness :
  rd_bool (isProvider both_submitted) 2 = true /\
  paused both_submitted = false /\
  lastCallTime Submission both_submitted 2 + cooldownSeconds both_submitted
    = 160 /\
  submitEncryptedGeneticData MockEngine (anyone 2 159) both_submitted 1 [9]
    = Revert CooldownActive /\
  respectSubmissionCooldown (anyone 2 160) both_submitted = Ok tt /\
  submitEncryptedGeneticData MockEngine (anyone 2 160) both_submitted 1 [9]
    <> Revert CooldownActive.
Proof.
  assert (Hprov : rd_bool (isProvider both_submitted) 2 = true)
    by (vm_compute; reflexivity).
  assert (Hrun : paused both_submitted = false) by (vm_compute; reflexivity).
  assert (Hsum : lastCallTime Submission both_submitted 2
                 + cooldownSeconds both_submitted = 160)
    by (vm_compute; reflexivity).
  destruct (C8_cooldown_boundary_checked MockEngine mock_this Submission
              (anyone 2 159) both_submitted 1 [9] Hprov Hrun)
    as (Hiff & _ & _).
  destruct (C8_cooldown_boundary_checked MockEngine mock_this Submission
              (anyone 2 160) both_submitted 1 [9] Hprov Hrun)
    as (_ & _ & _ & Hedge).
  refine (conj Hprov (conj Hrun (conj Hsum (conj _ _)))).
  - apply Hiff. split; vm_compute; [reflexivity|discriminate].
  - apply Hedge; vm_compute; [reflexivity|discriminate].
Defined.

(** C8 as stated fails: the owner, an authorized provider, requested at
    time 150 and the cooldown is now the largest [uint256]. Its request at
    time 200 comes before [t + c], and it is rejected with the arithmetic
    panic, not with the cooldown error. *)
Lemma C8_early_call_raises_panic :
  rd_bool (isProvider cooldown_maximal) 1 = true /\
  paused cooldown_maximal = false /\
  block_timestamp (anyone 1 200)
    < lastCallTime DecryptionRequest cooldown_maximal 1
      + cooldownSeconds cooldown_maximal /\
  gated_call MockEngine mock_this DecryptionRequest (anyone 1 200)
    cooldown_maximal 1 [] = Revert (Panic 17) /\
  gated_call MockEngine mock_this DecryptionRequest (anyone 1 200)
    cooldown_maximal 1 [] <> Revert CooldownActive.
Proof. vm_compute. repeat split; discriminate. Qed.

(** C4, as the code has it. The last-call timestamp of the caller is set
    to the current time exactly when the gated call succeeds; a call that
    passes the cooldown check and then fails for another reason leaves the
    timestamp as it was. *)
Theorem C4_timestamp_written_only_on_success (E : Engine) (this : Z)
    (cls : GatedClass) (env : Env) (s : State) (b : Z) (points : list Z) :
  lastCallTime cls
    (state_after s (gated_call E this cls env s b points)) (msg_sender env)
  = if is_ok (gated_call E this cls env s b points)
    then block_timestamp env
    else lastCallTime cls s (msg_sender env).
Proof.
  destruct cls; simpl.
  - rewrite submit_cases.
    destruct (negb (rd_bool (isProvider s) (msg_sender env))); [reflexivity|].
    destruct (paused s); [reflexivity|].
    destruct (respectSubmissionCooldown env s); [|reflexivity].
    destruct (negb (rd_bool (isBatchOpen s) b)); [reflexivity|].
    destruct points; [reflexivity|].
    destruct (checked_add _ _); [|reflexivity].
    simpl. apply rd_uint_insert_eq.
  - rewrite (request_cases E this).
    destruct (negb (rd_bool (isProvider s) (msg_sender env))); [reflexivity|].
    destruct (paused s); [reflexivity|].
    destruct (respectDecryptionCooldown env s); [|reflexivity].
    destruct (_ =? 0); [reflexivity|].
    simpl. apply rd_uint_insert_eq.
Qed.

(** C4 as stated fails: the deployer, a provider whose cooldown has
    elapsed, submits into batch [5], which is not open. The gate admits
    the call, the call reverts with [BatchClosed], and the caller's last
    submission time is not the current time. *)
Lemma C4_timestamp_not_updated_on_failure :
  respectSubmissionCooldown (anyone 1 100) deployed = Ok tt /\
  submitEncryptedGeneticData MockEngine (anyone 1 100) deployed 5 [7]
    = Revert BatchClosed /\
  rd_uint
    (lastSubmissionTime
       (state_after deployed
          (submitEncryptedGeneticData MockEngine (anyone 1 100) deployed 5
             [7]))) 1
    <> block_timestamp (anyone 1 100).
Proof. vm_compute. repeat split; discriminate. Qed.

(** ** The decryption callback *)

Lemma rd_context_set_eq (s : State) (requestId : Z) (c : DecryptionContext) :
  rd_context (set_context s requestId c) requestId = c.
Proof. unfold rd_context. simpl. now rewrite lookup_insert_eq. Qed.

(** The request records the digest of the caller's aggregate. *)
Lemma request_records_caller_aggregate (E : Engine) (this : Z) (env : Env)
    (s s' : State) (events : list Event) (b : Z) :
  requestResearchCalculation E this env s b = Ok (s', events) ->
  rd_context s' (oracle_requestId env)
  = {| batchId := b;
       stateHash :=
         _hashCiphertexts E this
           [aggregate E (dataPoints s b (msg_sender env))];
       processed := false |} /\
  batchGeneticData s' = batchGeneticData s /\
  owner s' = owner s.
Proof.
  rewrite request_cases. intros H.
  destruct (negb (rd_bool (isProvider s) (msg_sender env))); [discriminate|].
  destruct (paused s); [discriminate|].
  destruct (respectDecryptionCooldown env s); [|discriminate].
  destruct (_ =? 0); [discriminate|].
  injection H as <- _.
  rewrite rd_context_set_eq. repeat split.
Qed.

(** When the requester is the owner and the stored submissions are as they
    were at request time, the callback's state check passes. *)
Lemma owner_request_passes_state_check (E : Engine) (this : Z)
    (env env' : Env) (s s' : State) (events : list Event) (b : Z)
    (cleartexts proof : list Byte.byte) :
  msg_sender env = owner s ->
  requestResearchCalculation E this env s b = Ok (s', events) ->
  myCallback E this env' s' (oracle_requestId env) cleartexts proof
    <> Revert StateMismatch.
Proof.
  intros Hown Hreq.
  destruct (request_records_caller_aggregate E this env s s' events b Hreq)
    as (Hctx & Hdata & Howner).
  rewrite callback_cases. cbv zeta. rewrite Hctx. simpl.
  unfold dataPoints, _hashCiphertexts. rewrite Hdata, Howner, <- Hown.
  rewrite Z.eqb_refl. simpl.
  destruct (negb (checkSignatures _ _ _ _)); [discriminate|].
  destruct (negb (32 <=? _)); discriminate.
Qed.

(** For any other requester the check compares the digest of the
    requester's aggregate with the digest of the owner's: when they differ
    the callback rejects although nothing was stored in between. *)
Lemma other_request_fails_state_check (E : Engine) (this : Z)
    (env env' : Env) (s s' : State) (events : list Event) (b : Z)
    (cleartexts proof : list Byte.byte) :
  requestResearchCalculation E this env s b = Ok (s', events) ->
  _hashCiphertexts E this [aggregate E (dataPoints s b (owner s))]
    <> _hashCiphertexts E this [aggregate E (dataPoints s b (msg_sender env))] ->
  myCallback E this env' s' (oracle_requestId env) cleartexts proof
    = Revert StateMismatch.
Proof.
  intros Hreq Hdiff.
  destruct (request_records_caller_aggregate E this env s s' events b Hreq)
    as (Hctx & Hdata & Howner).
  rewrite callback_cases. cbv zeta. rewrite Hctx. simpl.
  unfold dataPoints, _hashCiphertexts in *. rewrite Hdata, Howner.
  destruct (Z.eqb_spec
              (keccak_cts E
                 [aggregate E (default [] (batchGeneticData s !! (b, owner s)))]
                 this)
              (keccak_cts E
                 [aggregate E
                    (default [] (batchGeneticData s !! (b, msg_sender env)))]
                 this)); [contradiction|reflexivity].
Qed.

(** C7. The callback invoked twice with the same request identifier and
    payload: the second invocation never succeeds; when the first one
    succeeded, the second is rejected with [ReplayAttempt]; and the second
    leaves the state exactly as the first left it, with [processed] still
    set. *)
Theorem C7_callback_replay_rejected (E : Engine) (this : Z) (env1 env2 : Env)
    (s : State) (requestId : Z) (cleartexts proof : list Byte.byte) :
  let r1 := myCallback E this env1 s requestId cleartexts proof in
  let s1 := state_after s r1 in
  let r2 := myCallback E this env2 s1 requestId cleartexts proof in
  is_ok r2 = false /\
  (is_ok r1 = true ->
     r2 = Revert ReplayAttempt /\ processed (rd_context s1 requestId) = true) /\
  state_after s1 r2 = s1.
Proof.
  cbv zeta.
  assert (Hfirst :
    (exists s1 ev, myCallback E this env1 s requestId cleartexts proof
                   = Ok (s1, ev)
                   /\ processed (rd_context s1 requestId) = true)
    \/
    (exists e, myCallback E this env1 s requestId cleartexts proof = Revert e
               /\ myCallback E this env2 s requestId cleartexts proof
                  = Revert e)).
  { rewrite !callback_cases. cbv zeta.
    destruct (processed (rd_context s requestId)); [right; eauto|].
    destruct (negb (_ =? _)); [right; eauto|].
    destruct (negb (checkSignatures _ _ _ _)); [right; eauto|].
    destruct (negb (32 <=? _)); [right; eauto|].
    left. do 2 eexists. split; [reflexivity|].
    now rewrite rd_context_set_eq. }
  destruct Hfirst as [(s1 & ev & -> & Hdone)|(e & -> & Hsame)]; simpl.
  - assert (Hsecond : myCallback E this env2 s1 requestId cleartexts proof
                      = Revert ReplayAttempt).
    { rewrite callback_cases. cbv zeta. now rewrite Hdone. }
    rewrite Hsecond. simpl. auto.
  - rewrite Hsame. simpl. split; [reflexivity|]. split; [discriminate|].
    reflexivity.
Qed.

Lemma C7_callback_replay_rejected_witness :
  is_ok (myCallback MockEngine mock_this (anyone 900 300) owner_requested 79
           cleartext12 cleartext12) = true /\
  myCallback MockEngine mock_this (anyone 900 400)
    (state_after owner_requested
       (myCallback MockEngine mock_this (anyone 900 300) owner_requested 79
          cleartext12 cleartext12))
    79 cleartext12 cleartext12 = Revert ReplayAttempt.
Proof.
  assert (Hfirst : is_ok (myCallback MockEngine mock_this (anyone 900 300)
                            owner_requested 79 cleartext12 cleartext12)
                   = true) by (vm_compute; reflexivity).
  split; [exact Hfirst|].
  destruct (C7_callback_replay_rejected MockEngine mock_this (anyone 900 300)
              (anyone 900 400) owner_requested 79 cleartext12 cleartext12)
    as (_ & Hreplay & _).
  exact (proj1 (Hreplay Hfirst)).
Defined.

(** C9, as the code has it. The callback does not look at its caller: the
    outcome is the same whoever invokes it, and an invocation succeeds
    exactly when the request is not yet processed, the recomputed
    fingerprint equals the recorded one, the engine accepts the proof and
    the cleartext decodes. *)
Theorem C9_callback_outcome_independent_of_caller (E : Engine) (this : Z)
    (env env' : Env) (s : State) (requestId : Z)
    (cleartexts proof : list Byte.byte) :
  myCallback E this env s requestId cleartexts proof
    = myCallback E this env' s requestId cleartexts proof /\
  (is_ok (myCallback E this env s requestId cleartexts proof) = true <->
     processed (rd_context s requestId) = false /\
     _reconstructAndHashCleartextsForCallback E this s
       (batchId (rd_context s requestId))
       = stateHash (rd_context s requestId) /\
     checkSignatures E requestId cleartexts proof = true /\
     32 <= Z.of_nat (length cleartexts)).
Proof.
  split; [now rewrite !callback_cases|].
  rewrite callback_cases. cbv zeta.
  unfold _reconstructAndHashCleartextsForCallback, _hashCiphertexts.
  destruct (processed (rd_context s requestId)); simpl.
  { split; [discriminate|]. intros (? & _). discriminate. }
  destruct (Z.eqb_spec
              (keccak_cts E
                 [aggregate E
                    (dataPoints s (batchId (rd_context s requestId))
                       (owner s))] this)
              (stateHash (rd_context s requestId))) as [Heq|Hne]; simpl.
  2: { split; [discriminate|]. intros (_ & ? & _). contradiction. }
  destruct (checkSignatures E requestId cleartexts proof); simpl.
  2: { split; [discriminate|]. intros (_ & _ & ? & _). discriminate. }
  destruct (Z.leb_spec 32 (Z.of_nat (length cleartexts))); simpl.
  - split; [intros _; repeat split; assumption | reflexivity].
  - split; [discriminate|]. intros (_ & _ & _ & ?). lia.
Qed.

Lemma C9_callback_outcome_independent_of_caller_witness :
  myCallback MockEngine mock_this (anyone 900 300) owner_requested 79
    cleartext12 cleartext12
  = myCallback MockEngine mock_this (anyone 2 300) owner_requested 79
      cleartext12 cleartext12.
Proof.
  exact (proj1 (C9_callback_outcome_independent_of_caller MockEngine
                  mock_this (anyone 900 300) (anyone 2 300) owner_requested
                  79 cleartext12 cleartext12)).
Defined.

(** C9 as stated fails: account [2], which is not the oracle's address,
    delivers the cleartext with a proof the engine accepts, and the
    callback succeeds and marks the request processed. *)
Lemma C9_callback_accepts_other_caller :
  msg_sender (anyone 2 300) <> decryptionOracle MockEngine /\
  is_ok (myCallback MockEngine mock_this (anyone 2 300) owner_requested 79
           cleartext12 cleartext12) = true /\
  processed
    (rd_context
       (state_after owner_requested
          (myCallback MockEngine mock_this (anyone 2 300) owner_requested 79
             cleartext12 cleartext12)) 79) = true.
Proof. vm_compute. repeat split; discriminate. Qed.

(** ** Batches known to the ledger *)

Lemma dataPoints_insert_ne (s : State) (b p b' p' : Z) (l : list Z) :
  (b, p) <> (b', p') ->
  dataPoints (set_dataPoints s b p l) b' p' = dataPoints s b' p'.
Proof. intros H. unfold dataPoints. simpl. now rewrite lookup_insert_ne. Qed.

Lemma Inv_constructor (env : Env) : Inv (constructor env).
Proof.
  split; simpl.
  - lia.
  - intros b. unfold rd_bool. rewrite lookup_empty. discriminate.
  - intros b. unfold rd_uint. rewrite lookup_empty. simpl. congruence.
  - intros b p. unfold dataPoints. simpl. rewrite lookup_empty. simpl.
    congruence.
Qed.

(** A state that differs only outside the batch bookkeeping keeps [Inv]. *)
Lemma Inv_same_batches (s s' : State) :
  currentBatchId s' = currentBatchId s ->
  isBatchOpen s' = isBatchOpen s ->
  batchSubmissionCount s' = batchSubmissionCount s ->
  batchGeneticData s' = batchGeneticData s ->
  Inv s -> Inv s'.
Proof.
  intros Hc Ho Hn Hd [I1 I2 I3 I4].
  split; unfold batch_known, dataPoints in *; rewrite ?Hc, ?Ho, ?Hn, ?Hd;
    assumption.
Qed.

Lemma Inv_openBatch (env : Env) (s : State) :
  Inv s -> Inv (state_after s (openBatch env s)).
Proof.
  intros HI. unfold openBatch, onlyOwner, whenNotPaused, checked_add.
  destruct (msg_sender env =? owner s); simpl; [|exact HI].
  destruct (paused s); simpl; [exact HI|].
  destruct (_ <=? MAX_UINT256); simpl; [|exact HI].
  destruct HI as [I1 I2 I3 I4].
  split; unfold batch_known in *; simpl.
  - lia.
  - intros b Hb. destruct (decide (b = currentBatchId s + 1)) as [->|Hne].
    + lia.
    + rewrite rd_bool_insert_ne in Hb by congruence.
      specialize (I2 b Hb). lia.
  - intros b Hb. destruct (decide (b = currentBatchId s + 1)) as [->|Hne].
    + lia.
    + rewrite rd_uint_insert_ne in Hb by congruence.
      specialize (I3 b Hb). lia.
  - intros b p Hb. specialize (I4 b p Hb). lia.
Qed.

Lemma Inv_closeBatch (env : Env) (s : State) (b : Z) :
  Inv s -> Inv (state_after s (closeBatch env s b)).
Proof.
  intros HI. unfold closeBatch, onlyOwner, whenNotPaused.
  destruct (msg_sender env =? owner s); simpl; [|exact HI].
  destruct (paused s); simpl; [exact HI|].
  destruct (rd_bool (isBatchOpen s) b); simpl; [|exact HI].
  destruct HI as [I1 I2 I3 I4].
  split; unfold batch_known in *; simpl; try assumption.
  intros b' Hb. destruct (decide (b' = b)) as [->|Hne].
  - rewrite rd_bool_insert_eq in Hb. discriminate.
  - rewrite rd_bool_insert_ne in Hb by congruence. auto.
Qed.

Lemma Inv_submit (E : Engine) (env : Env) (s : State) (b : Z)
    (points : list Z) :
  Inv s -> Inv (state_after s (submitEncryptedGeneticData E env s b points)).
Proof.
  intros HI. rewrite submit_cases.
  destruct (negb (rd_bool (isProvider s) (msg_sender env))); [exact HI|].
  destruct (paused s); [exact HI|].
  destruct (respectSubmissionCooldown env s); [|exact HI].
  destruct (rd_bool (isBatchOpen s) b) eqn:Hopen; simpl; [|exact HI].
  destruct points as [|p points]; [exact HI|].
  destruct (checked_add _ _) as [count|]; [|exact HI].
  destruct HI as [I1 I2 I3 I4]. pose proof (I2 b Hopen) as Hk.
  split; unfold batch_known in *; simpl; try assumption.
  - intros b' Hb. destruct (decide (b' = b)) as [->|Hne]; [assumption|].
    rewrite rd_uint_insert_ne in Hb by congruence. auto.
  - intros b' p' Hb.
    destruct (decide ((b, msg_sender env) = (b', p'))) as [Heq|Hne].
    + injection Heq as <- _. assumption.
    + unfold dataPoints in Hb. simpl in Hb.
      rewrite lookup_insert_ne in Hb by assumption.
      exact (I4 b' p' Hb).
Qed.

Lemma Inv_step (E : Engine) (this : Z) (s : State) (t : Env * Call) :
  Inv s -> Inv (step E this s t).
Proof.
  intros HI. destruct t as [env c]. unfold step. simpl.
  destruct c; simpl.
  - unfold transferOwnership, onlyOwner.
    destruct (_ =? _); simpl; [|exact HI].
    now apply (Inv_same_batches s).
  - unfold addProvider, onlyOwner.
    destruct (_ =? _); simpl; [|exact HI].
    destruct (negb _); simpl; [|exact HI].
    now apply (Inv_same_batches s).
  - unfold removeProvider, onlyOwner.
    destruct (_ =? _); simpl; [|exact HI].
    destruct (rd_bool _ _); simpl; [|exact HI].
    now apply (Inv_same_batches s).
  - unfold pause, onlyOwner, whenNotPaused.
    destruct (_ =? _); simpl; [|exact HI].
    destruct (paused s); simpl; [exact HI|].
    now apply (Inv_same_batches s).
  - unfold unpause, onlyOwner.
    destruct (_ =? _); simpl; [|exact HI].
    now apply (Inv_same_batches s).
  - unfold setCooldownSeconds, onlyOwner.
    destruct (_ =? _); simpl; [|exact HI].
    destruct (negb _); simpl; [|exact HI].
    now apply (Inv_same_batches s).
  - now apply Inv_openBatch.
  - now apply Inv_closeBatch.
  - now apply Inv_submit.
  - rewrite request_cases.
    destruct (negb _); [exact HI|].
    destruct (paused s); [exact HI|].
    destruct (respectDecryptionCooldown env s); [|exact HI].
    destruct (_ =? 0); [exact HI|].
    now apply (Inv_same_batches s).
  - rewrite callback_cases. cbv zeta.
    destruct (processed _); [exact HI|].
    destruct (negb (_ =? _)); [exact HI|].
    destruct (negb (checkSignatures _ _ _ _)); [exact HI|].
    destruct (negb (32 <=? _)); [exact HI|].
    now apply (Inv_same_batches s).
Qed.

Lemma reachable_Inv (E : Engine) (this : Z) (s : State) :
  reachable E this s -> Inv s.
Proof.
  induction 1 as [env|s t _ IH].
  - apply Inv_constructor.
  - now apply Inv_step.
Qed.

Lemma reachable_run (E : Engine) (this : Z) (s : State)
    (txs : list (Env * Call)) :
  reachable E this s -> reachable E this (run E this s txs).
Proof.
  revert s. induction txs as [|t txs IH]; intros s Hs; simpl.
  - exact Hs.
  - apply IH. now constructor.
Qed.

(** Batch [0] is never allocated, so nothing is ever stored under it. *)
Lemma reachable_batch_zero_empty (E : Engine) (this : Z) (s : State) (p : Z) :
  reachable E this s -> dataPoints s 0 p = [].
Proof.
  intros Hs. destruct (reachable_Inv E this s Hs) as [_ _ _ I4].
  destruct (dataPoints s 0 p) eqn:Hd; [reflexivity|].
  assert (Hk : batch_known s 0) by (apply (I4 0 p); congruence).
  unfold batch_known in Hk. lia.
Qed.

(** ** Unknown requests *)

(** C2, as the code has it. A request identifier under which nothing was
    ever recorded reads as the zero context (batch 0, fingerprint 0, not
    processed): the callback does not raise [ReplayAttempt] for it; it goes
    on to the fingerprint check, which compares the digest of the
    encrypted-zero aggregate with 0 and, that digest being non-zero,
    rejects with [StateMismatch]. A rejected callback changes no state. *)
Theorem C2_unknown_request_fails_state_check (E : Engine) (this : Z)
    (env : Env) (s : State) (requestId : Z)
    (cleartexts proof : list Byte.byte) :
  reachable E this s ->
  decryptionContexts s !! requestId = None ->
  let r := myCallback E this env s requestId cleartexts proof in
  r <> Revert ReplayAttempt /\
  (keccak_cts E [asEuint32_0 E] this <> 0 -> r = Revert StateMismatch) /\
  (is_ok r = false -> state_after s r = s).
Proof.
  intros Hreach Hnone. cbv zeta.
  rewrite callback_cases. cbv zeta.
  unfold rd_context. rewrite Hnone. simpl.
  rewrite (reachable_batch_zero_empty E this s (owner s) Hreach).
  rewrite aggregate_nil.
  destruct (Z.eqb_spec (keccak_cts E [asEuint32_0 E] this) 0) as [Hz|Hnz];
    simpl.
  - split; [|split; [contradiction|]].
    + destruct (negb (checkSignatures _ _ _ _)); [discriminate|].
      destruct (negb (32 <=? _)); discriminate.
    + destruct (negb (checkSignatures _ _ _ _)); [reflexivity|].
      destruct (negb (32 <=? _)); [reflexivity|discriminate].
  - repeat split; discriminate.
Qed.

Lemma C2_unknown_request_fails_state_check_witness :
  reachable MockEngine mock_this owner_requested /\
  decryptionContexts owner_requested !! 42 = None /\
  keccak_cts MockEngine [asEuint32_0 MockEngine] mock_this <> 0 /\
  myCallback MockEngine mock_this (anyone 900 300) owner_requested 42
    cleartext12 cleartext12 = Revert StateMismatch.
Proof.
  assert (Hreach : reachable MockEngine mock_this owner_requested).
  { apply reachable_run. apply reachable_deployed. }
  assert (Hnone : decryptionContexts owner_requested !! 42 = None)
    by (vm_compute; reflexivity).
  assert (Hnz : keccak_cts MockEngine [asEuint32_0 MockEngine] mock_this
                <> 0) by (vm_compute; discriminate).
  refine (conj Hreach (conj Hnone (conj Hnz _))).
  destruct (C2_unknown_request_fails_state_check MockEngine mock_this
              (anyone 900 300) owner_requested 42 cleartext12 cleartext12
              Hreach Hnone) as (_ & Hmismatch & _).
  exact (Hmismatch Hnz).
Defined.

(** C2 as stated fails: on the freshly deployed ledger no request exists
    under identifier [42], and the callback for it is rejected with
    [StateMismatch], not with the replay error. *)
Lemma C2_unknown_request_not_replay_error :
  decryptionContexts deployed !! 42 = None /\
  myCallback MockEngine mock_this (anyone 900 300) deployed 42
    cleartext12 cleartext12 = Revert StateMismatch /\
  myCallback MockEngine mock_this (anyone 900 300) deployed 42
    cleartext12 cleartext12 <> Revert ReplayAttempt.
Proof. vm_compute. repeat split; discriminate. Qed.

(** ** Aggregation requests and the batch state *)

(** C3, as the code has it. [requestCalculation] does not consult the open
    flag; it is gated by the batch's submission counter. A request against
    a batch that was never opened, or that has no recorded submission,
    fails; a request by an authorized provider whose cooldown has elapsed,
    with the system unpaused, against a batch with at least one recorded
    submission succeeds, open or closed. *)
Theorem C3_request_gated_by_submission_count (E : Engine) (this : Z)
    (env : Env) (s : State) (b : Z) :
  reachable E this s ->
  let r := requestResearchCalculation E this env s b in
  (~ batch_known s b -> is_ok r = false) /\
  (rd_uint (batchSubmissionCount s) b = 0 -> is_ok r = false) /\
  (rd_bool (isProvider s) (msg_sender env) = true ->
   paused s = false ->
   rd_uint (lastDecryptionRequestTime s) (msg_sender env) + cooldownSeconds s
     <= block_timestamp env ->
   block_timestamp env <= MAX_UINT256 ->
   rd_uint (batchSubmissionCount s) b <> 0 ->
   is_ok r = true).
Proof.
  intros Hreach. cbv zeta.
  assert (Hempty : rd_uint (batchSubmissionCount s) b = 0 ->
                   is_ok (requestResearchCalculation E this env s b) = false).
  { intros Hz. rewrite request_cases, Hz. simpl.
    destruct (negb _); [reflexivity|].
    destruct (paused s); [reflexivity|].
    destruct (respectDecryptionCooldown env s); reflexivity. }
  split; [|split].
  - intros Hunknown. apply Hempty.
    destruct (reachable_Inv E this s Hreach) as [_ _ I3 _].
    destruct (Z.eq_dec (rd_uint (batchSubmissionCount s) b) 0) as [Hz|Hnz];
      [exact Hz|].
    exfalso. apply Hunknown. now apply I3.
  - exact Hempty.
  - intros Hprov Hrun Helapsed Hnow Hcount.
    rewrite request_cases, Hprov, Hrun. simpl.
    pose proof (cooldown_gate_spec DecryptionRequest env s) as Hgate.
    simpl in Hgate. rewrite Hgate by lia.
    destruct (Z.ltb_spec (block_timestamp env)
                (rd_uint (lastDecryptionRequestTime s) (msg_sender env)
                 + cooldownSeconds s)); [lia|].
    destruct (Z.eqb_spec (rd_uint (batchSubmissionCount s) b) 0);
      [contradiction|reflexivity].
Qed.

Lemma C3_request_gated_by_submission_count_witness :
  reachable MockEngine mock_this batch_closed /\
  ~ batch_known batch_closed 2 /\
  is_ok (requestResearchCalculation MockEngine mock_this (anyone 1 200)
           batch_closed 2) = false.
Proof.
  assert (Hreach : reachable MockEngine mock_this batch_closed).
  { apply reachable_run. apply reachable_deployed. }
  assert (Hunknown : ~ batch_known batch_closed 2).
  { unfold batch_known. vm_compute. intros [_ H]. apply H. reflexivity. }
  refine (conj Hreach (conj Hunknown _)).
  destruct (C3_request_gated_by_submission_count MockEngine mock_this
              (anyone 1 200) batch_closed 2 Hreach) as (Hnever & _ & _).
  exact (Hnever Hunknown).
Defined.

(** C3 as stated fails: batch [1] holds one submission and has been
    closed; the owner, an authorized provider, requests its aggregate and
    the request is admitted. *)
Lemma C3_request_admitted_on_closed_batch :
  rd_bool (isProvider batch_closed) 1 = true /\
  rd_bool (isBatchOpen batch_closed) 1 = false /\
  is_ok (requestResearchCalculation MockEngine mock_this
           {| msg_sender := 1; block_timestamp := 200;
              oracle_requestId := 80 |} batch_closed 1) = true.
Proof. vm_compute. repeat split. Qed.

(** ** The fingerprint check of the callback *)

(** C1 at two concrete histories. The callback rebuilds the aggregate of
    the owner's submission, not of the requester's.
    (1) Provider [2], who is not the owner, submits and requests; nothing
    is stored in between, the recorded fingerprint is the digest of the
    provider's aggregate, the proof is valid, and the callback still
    rejects with [StateMismatch].
    (2) Owner and provider [2] hold equal submissions; [2] requests and
    then overwrites its submission; the callback accepts. *)
Theorem C1_callback_rebuilds_owner_aggregate :
  (owner provider_submitted <> 2 /\
   is_ok (exec MockEngine mock_this (fst (tx 2 200 77 (CallRequest 1)))
            provider_submitted (CallRequest 1)) = true /\
   stateHash (rd_context provider_requested 77)
     = _hashCiphertexts MockEngine mock_this
         [aggregate MockEngine (dataPoints provider_submitted 1 2)] /\
   batchGeneticData provider_requested = batchGeneticData provider_submitted /\
   checkSignatures MockEngine 77 cleartext12 cleartext12 = true /\
   myCallback MockEngine mock_this (anyone 900 300) provider_requested 77
     cleartext12 cleartext12 = Revert StateMismatch)
  /\
  (processed (rd_context provider_overwrote 78) = false /\
   stateHash (rd_context provider_overwrote 78)
     = _hashCiphertexts MockEngine mock_this
         [aggregate MockEngine (dataPoints both_submitted 1 2)] /\
   dataPoints both_submitted 1 2 = [5] /\
   dataPoints provider_overwrote 1 2 = [9] /\
   is_ok (myCallback MockEngine mock_this (anyone 900 400) provider_overwrote
            78 cleartext12 cleartext12) = true).
Proof. vm_compute. repeat split; discriminate. Qed.

(** ** Further properties of the contract *)

(** Case analysis of one transaction: every guard is split, a rejected
    branch leaves the goal about the unchanged state. *)
Ltac split_guards :=
  repeat match goal with
  | |- context [bind (require ?b ?e) _] =>
      let H := fresh "Hguard" in destruct b eqn:H; cbn [require bind]
  | |- context [bind (checked_add ?a ?b) _] =>
      let H := fresh "Hadd" in
      unfold checked_add at 1;
      destruct (a + b <=? MAX_UINT256) eqn:H; cbn [bind]
  | |- context [bind (abi_decode_uint256 ?c) _] =>
      let H := fresh "Hdecode" in
      unfold abi_decode_uint256 at 1;
      destruct (32 <=? Z.of_nat (length c)) eqn:H; cbn [bind]
  | |- context [bind (respectSubmissionCooldown ?env ?s) _] =>
      let H := fresh "Hgate" in
      destruct (respectSubmissionCooldown env s) as [[]|] eqn:H; cbn [bind]
  | |- context [bind (respectDecryptionCooldown ?env ?s) _] =>
      let H := fresh "Hgate" in
      destruct (respectDecryptionCooldown env s) as [[]|] eqn:H; cbn [bind]
  end.

Ltac unfold_call :=
  unfold step, exec; cbn [fst snd];
  unfold transferOwnership, addProvider, removeProvider, pause, unpause,
    setCooldownSeconds, openBatch, closeBatch, submitEncryptedGeneticData,
    requestResearchCalculation, myCallback, onlyOwner, onlyProvider,
    whenNotPaused;
  cbv zeta.

Lemma _initIfNeeded_normalized (E : Engine) (h : Z) :
  normalized E (_initIfNeeded E h).
Proof.
  unfold normalized, _initIfNeeded.
  destruct (isInitialized E h) eqn:Hinit; simpl; auto.
Qed.

Lemma map_initIfNeeded_normalized (E : Engine) (points : list Z) :
  Forall (normalized E) (map (_initIfNeeded E) points).
Proof.
  induction points as [|p points IH]; simpl; constructor.
  - apply _initIfNeeded_normalized.
  - exact IH.
Qed.

Lemma StoreInv_constructor (E : Engine) (env : Env) :
  StoreInv E (constructor env).
Proof.
  split; simpl.
  - discriminate.
  - intros b. unfold rd_uint. rewrite lookup_empty. simpl. lia.
  - intros b p l H. rewrite lookup_empty in H. discriminate.
  - intros r c H. rewrite lookup_empty in H. discriminate.
Qed.

(** A state that agrees on the five fields [StoreInv] reads keeps it. *)
Lemma StoreInv_same (E : Engine) (s s' : State) :
  cooldownSeconds s' = cooldownSeconds s ->
  currentBatchId s' = currentBatchId s ->
  batchSubmissionCount s' = batchSubmissionCount s ->
  batchGeneticData s' = batchGeneticData s ->
  decryptionContexts s' = decryptionContexts s ->
  StoreInv E s -> StoreInv E s'.
Proof.
  intros H1 H2 H3 H4 H5 [I1 I2 I3 I4].
  split; unfold batch_known in *; rewrite ?H1, ?H2, ?H3, ?H4, ?H5; assumption.
Qed.

Lemma StoreInv_step (E : Engine) (this : Z) (s : State) (t : Env * Call) :
  Inv s -> StoreInv E s -> StoreInv E (step E this s t).
Proof.
  intros HI HS. destruct t as [env c].
  destruct c; unfold_call; split_guards; cbn [state_after];
    try exact HS;
    try (apply (StoreInv_same E s); [reflexivity..|exact HS]).
  - (* addProvider *)
    destruct (negb _); cbn [state_after]; [|exact HS].
    apply (StoreInv_same E s); [reflexivity..|exact HS].
  - (* removeProvider *)
    destruct (rd_bool _ _); cbn [state_after]; [|exact HS].
    apply (StoreInv_same E s); [reflexivity..|exact HS].
  - (* setCooldownSeconds *)
    destruct HS as [I1 I2 I3 I4]. split; try assumption. simpl.
    apply negb_true_iff, Z.eqb_neq in Hguard0. exact Hguard0.
  - (* openBatch *)
    destruct HI as [J1 J2 J3 J4]. destruct HS as [I1 I2 I3 I4].
    split; unfold batch_known in *; simpl; try assumption.
    + intros b. destruct (decide (b = currentBatchId s + 1)) as [->|Hne].
      * rewrite rd_uint_insert_eq. lia.
      * rewrite rd_uint_insert_ne by congruence. apply I2.
    + intros b p l Hl. destruct (I3 b p l Hl) as (Hne & Hnorm & Hc).
      repeat split; try assumption.
      destruct (decide (b = currentBatchId s + 1)) as [->|Hneq].
      * assert (Hk : 1 <= currentBatchId s + 1 <= currentBatchId s).
        { apply (J4 _ p). unfold dataPoints. rewrite Hl. exact Hne. }
        lia.
      * rewrite rd_uint_insert_ne by congruence. exact Hc.
    + intros r c Hr Hp. destruct (I4 r c Hr Hp) as (Hk & Hc).
      split; [lia|]. rewrite rd_uint_insert_ne by lia. exact Hc.
  - (* submit *)
    destruct HS as [I1 I2 I3 I4].
    apply Z.leb_le in Hadd.
    assert (Hmono : forall b',
      rd_uint (batchSubmissionCount s) b'
      <= rd_uint (<[b := rd_uint (batchSubmissionCount s) b + 1]>
                    (batchSubmissionCount s)) b').
    { intros b'. destruct (decide (b' = b)) as [->|Hne].
      - rewrite rd_uint_insert_eq. lia.
      - rewrite rd_uint_insert_ne by congruence. lia. }
    split; unfold batch_known in *; simpl; try assumption.
    + intros b'. specialize (Hmono b'). specialize (I2 b'). lia.
    + intros b' p l Hl.
      destruct (decide ((b, msg_sender env) = (b', p))) as [Heq|Hne].
      * injection Heq as <- <-. rewrite lookup_insert_eq in Hl.
        injection Hl as <-. rewrite push_loop_map.
        repeat split.
        -- destruct points; [discriminate|discriminate].
        -- apply map_initIfNeeded_normalized.
        -- rewrite rd_uint_insert_eq. specialize (I2 b). lia.
      * rewrite lookup_insert_ne in Hl by assumption.
        destruct (I3 b' p l Hl) as (Hn & Hnorm & Hc).
        repeat split; try assumption. specialize (Hmono b'). lia.
    + intros r c Hr Hp. destruct (I4 r c Hr Hp) as (Hk & Hc).
      split; [exact Hk|]. specialize (Hmono (batchId c)). lia.
  - (* request *)
    destruct HI as [J1 J2 J3 J4]. destruct HS as [I1 I2 I3 I4].
    split; unfold batch_known in *; simpl; try assumption.
    intros r c Hr Hp.
    destruct (decide (r = oracle_requestId env)) as [->|Hne].
    + rewrite lookup_insert_eq in Hr. injection Hr as <-. simpl.
      apply negb_true_iff, Z.eqb_neq in Hguard1.
      split; [apply J3; exact Hguard1|].
      specialize (I2 b). lia.
    + rewrite lookup_insert_ne in Hr by congruence. exact (I4 r c Hr Hp).
  - (* callback *)
    destruct HS as [I1 I2 I3 I4].
    split; unfold batch_known in *; simpl; try assumption.
    intros r c Hr Hp.
    destruct (decide (r = requestId)) as [->|Hne].
    + rewrite lookup_insert_eq in Hr. injection Hr as <-. discriminate.
    + rewrite lookup_insert_ne in Hr by congruence. exact (I4 r c Hr Hp).
Qed.

Lemma reachable_StoreInv (E : Engine) (this : Z) (s : State) :
  reachable E this s -> Inv s /\ StoreInv E s.
Proof.
  induction 1 as [env|s t _ [IH1 IH2]].
  - split; [apply Inv_constructor|apply StoreInv_constructor].
  - split; [now apply Inv_step|now apply StoreInv_step].
Qed.

(** *** Access control *)

Lemma admin_call_by_other_reverts (E : Engine) (this : Z) (env : Env)
    (s : State) (c : Call) :
  is_admin_call c = true -> msg_sender env <> owner s ->
  exec E this env s c = Revert NotOwner.
Proof.
  intros Hc Hne. apply Z.eqb_neq in Hne.
  destruct c; try discriminate; unfold_call; now rewrite Hne.
Qed.

Lemma provider_call_by_other_reverts (E : Engine) (this : Z) (env : Env)
    (s : State) (c : Call) :
  is_provider_call c = true ->
  rd_bool (isProvider s) (msg_sender env) = false ->
  exec E this env s c = Revert NotProvider.
Proof.
  intros Hc Hnp.
  destruct c; try discriminate; unfold_call; now rewrite Hnp.
Qed.

(** The access check is the first modifier of every guarded entry point:
    an administrative call from anyone but the owner reverts with
    [NotOwner], and a submission or aggregation request from an address
    that is not a provider reverts with [NotProvider], whatever the pause
    flag, the cooldowns and the arguments are. *)
Theorem guarded_calls_check_caller_first (E : Engine) (this : Z) (env : Env)
    (s : State) (c : Call) :
  (is_admin_call c = true -> msg_sender env <> owner s ->
   exec E this env s c = Revert NotOwner) /\
  (is_provider_call c = true ->
   rd_bool (isProvider s) (msg_sender env) = false ->
   exec E this env s c = Revert NotProvider).
Proof.
  split.
  - apply admin_call_by_other_reverts.
  - apply provider_call_by_other_reverts.
Qed.

Lemma guarded_calls_check_caller_first_witness :
  exec MockEngine mock_this (anyone 2 300) both_submitted
    (CallSetCooldownSeconds 0) = Revert NotOwner /\
  exec MockEngine mock_this (anyone 3 300) both_submitted (CallSubmit 9 [])
    = Revert NotProvider.
Proof.
  destruct (guarded_calls_check_caller_first MockEngine mock_this
              (anyone 2 300) both_submitted (CallSetCooldownSeconds 0))
    as [Hadmin _].
  destruct (guarded_calls_check_caller_first MockEngine mock_this
              (anyone 3 300) both_submitted (CallSubmit 9 []))
    as [_ Hprov].
  split.
  - apply Hadmin; [reflexivity|vm_compute; discriminate].
  - apply Hprov; vm_compute; reflexivity.
Defined.

(** A successful [transferOwnership] makes the new address the owner and
    nothing else: from then on every administrative call from any other
    address, the former owner included, reverts with [NotOwner]; the
    provider flags are untouched, so the new owner does not become a
    provider and the former owner stays one. *)
Theorem transferOwnership_hands_over_admin (E : Engine) (this : Z)
    (env : Env) (s s' : State) (events : list Event) (newOwner : Z) :
  transferOwnership env s newOwner = Ok (s', events) ->
  owner s' = newOwner /\
  events = [OwnershipTransferred (owner s) newOwner] /\
  isProvider s' = isProvider s /\
  (forall env' c, is_admin_call c = true -> msg_sender env' <> newOwner ->
     exec E this env' s' c = Revert NotOwner).
Proof.
  unfold transferOwnership, onlyOwner.
  destruct (Z.eqb_spec (msg_sender env) (owner s)) as [Hown|]; simpl;
    [|discriminate].
  intros H. injection H as <- <-. simpl.
  repeat split.
  intros env' c Hc Hne.
  apply (admin_call_by_other_reverts E this env'
           (set_owner s newOwner) c); assumption.
Qed.

Lemma transferOwnership_hands_over_admin_witness :
  transferOwnership (anyone 1 300) both_submitted 2
    = Ok (set_owner both_submitted 2, [OwnershipTransferred 1 2]) /\
  exec MockEngine mock_this (anyone 1 400) (set_owner both_submitted 2)
    CallOpenBatch = Revert NotOwner.
Proof.
  assert (Hrun : transferOwnership (anyone 1 300) both_submitted 2
                 = Ok (set_owner both_submitted 2,
                       [OwnershipTransferred 1 2]))
    by (vm_compute; reflexivity).
  split; [exact Hrun|].
  destruct (transferOwnership_hands_over_admin MockEngine mock_this
              (anyone 1 300) both_submitted _ _ 2 Hrun) as (_ & _ & _ & Hlock).
  apply Hlock; [reflexivity|vm_compute; discriminate].
Defined.

(** [addProvider] and [removeProvider] are idempotent: once the owner has
    put an address in the target state, repeating the call succeeds,
    changes nothing and emits no event. *)
Theorem provider_management_idempotent (env env' : Env) (s : State)
    (provider : Z) :
  msg_sender env = owner s ->
  msg_sender env' = owner s ->
  let added := state_after s (addProvider env s provider) in
  let removed := state_after s (removeProvider env s provider) in
  rd_bool (isProvider added) provider = true /\
  addProvider env' added provider = Ok (added, []) /\
  rd_bool (isProvider removed) provider = false /\
  removeProvider env' removed provider = Ok (removed, []).
Proof.
  intros Hown Hown'. cbv zeta.
  unfold addProvider, removeProvider, onlyOwner.
  rewrite Hown, Z.eqb_refl. cbn [require bind].
  destruct (rd_bool (isProvider s) provider) eqn:Hp;
    cbn [negb state_after owner set_isProvider isProvider];
    rewrite Hown', Z.eqb_refl; cbn [require bind];
    rewrite ?rd_bool_insert_eq, ?Hp; cbn [negb];
    repeat split.
Qed.

Lemma provider_management_idempotent_witness :
  msg_sender (anyone 1 300) = owner both_submitted /\
  addProvider (anyone 1 300)
    (state_after both_submitted (addProvider (anyone 1 300) both_submitted 7))
    7
  = Ok (state_after both_submitted
          (addProvider (anyone 1 300) both_submitted 7), []).
Proof.
  assert (Hown : msg_sender (anyone 1 300) = owner both_submitted)
    by (vm_compute; reflexivity).
  split; [exact Hown|].
  destruct (provider_management_idempotent (anyone 1 300) (anyone 1 300)
              both_submitted 7 Hown Hown) as (_ & Hadd & _).
  exact Hadd.
Defined.

(** After a successful [removeProvider] the removed address is rejected by
    [submit] and [requestCalculation] with [NotProvider] (the owner can
    remove itself this way), while whatever it had submitted stays stored
    and counted. *)
Theorem removed_provider_is_locked_out (E : Engine) (this : Z) (env : Env)
    (s s' : State) (events : list Event) (provider : Z) :
  removeProvider env s provider = Ok (s', events) ->
  (forall env' c, msg_sender env' = provider -> is_provider_call c = true ->
     exec E this env' s' c = Revert NotProvider) /\
  batchGeneticData s' = batchGeneticData s /\
  batchSubmissionCount s' = batchSubmissionCount s.
Proof.
  unfold removeProvider, onlyOwner.
  destruct (msg_sender env =? owner s); simpl; [|discriminate].
  destruct (rd_bool (isProvider s) provider) eqn:Hp; intros H;
    injection H as <- <-.
  - repeat split. intros env' c Hs Hc.
    apply (provider_call_by_other_reverts E this env'
             (set_isProvider s provider false) c); [exact Hc|].
    simpl. rewrite Hs. apply rd_bool_insert_eq.
  - repeat split. intros env' c Hs Hc.
    apply (provider_call_by_other_reverts E this env' s c); [exact Hc|].
    now rewrite Hs.
Qed.

Lemma removed_provider_is_locked_out_witness :
  is_ok (removeProvider (anyone 1 300) both_submitted 1) = true /\
  exec MockEngine mock_this (anyone 1 400)
    (state_after both_submitted
       (removeProvider (anyone 1 300) both_submitted 1))
    (CallRequest 1) = Revert NotProvider /\
  dataPoints
    (state_after both_submitted
       (removeProvider (anyone 1 300) both_submitted 1)) 1 1 = [5].
Proof.
  destruct (removeProvider (anyone 1 300) both_submitted 1)
    as [[s' ev]|e] eqn:Hrun; [|vm_compute in Hrun; discriminate].
  destruct (removed_provider_is_locked_out MockEngine mock_this
              (anyone 1 300) both_submitted s' ev 1 Hrun)
    as (Hlock & Hdata & _).
  split; [reflexivity|]. split.
  - apply Hlock; reflexivity.
  - simpl. unfold dataPoints. rewrite Hdata. vm_compute. reflexivity.
Defined.

(** *** Pausing *)

(** While the system is paused no pausable entry point ([pause],
    [openBatch], [closeBatch], [submit], [requestCalculation]) succeeds:
    a caller that passes the access check gets [Paused], any other caller
    the access error. *)
Theorem paused_blocks_pausable_calls (E : Engine) (this : Z) (env : Env)
    (s : State) (c : Call) :
  paused s = true ->
  is_pausable_call c = true ->
  exec E this env s c = Revert Paused \/
  exec E this env s c = Revert NotOwner \/
  exec E this env s c = Revert NotProvider.
Proof.
  intros Hp Hc.
  destruct c; try discriminate; unfold_call; rewrite Hp; cbn [negb].
  - destruct (msg_sender env =? owner s); simpl; auto.
  - destruct (msg_sender env =? owner s); simpl; auto.
  - destruct (msg_sender env =? owner s); simpl; auto.
  - destruct (rd_bool (isProvider s) (msg_sender env)); simpl; auto.
  - destruct (rd_bool (isProvider s) (msg_sender env)); simpl; auto.
Qed.

Lemma paused_blocks_pausable_calls_witness :
  paused (set_paused both_submitted true) = true /\
  exec MockEngine mock_this (anyone 2 300) (set_paused both_submitted true)
    (CallSubmit 1 [9]) = Revert Paused.
Proof.
  split; [reflexivity|].
  destruct (paused_blocks_pausable_calls MockEngine mock_this (anyone 2 300)
              (set_paused both_submitted true) (CallSubmit 1 [9])
              eq_refl eq_refl) as [H|[H|H]].
  - exact H.
  - vm_compute in H. discriminate.
  - vm_compute in H. discriminate.
Defined.

(** The pause flag is read by the pausable entry points only: the
    decryption callback and the remaining administrative calls
    ([transferOwnership], [addProvider], [removeProvider], [unpause],
    [setCooldownSeconds]) are accepted or rejected, with the same error or
    the same events, whether the system is paused or not. *)
Theorem unpausable_calls_ignore_pause (E : Engine) (this : Z) (env : Env)
    (s : State) (c : Call) (flag : bool) :
  is_pausable_call c = false ->
  outcome (exec E this env (set_paused s flag) c)
  = outcome (exec E this env s c).
Proof.
  intros Hc. destruct c; try discriminate; cbn [exec].
  - unfold transferOwnership, onlyOwner. cbn [owner set_paused].
    now destruct (_ =? _).
  - unfold addProvider, onlyOwner. cbn [owner set_paused isProvider].
    destruct (_ =? _); simpl; [|reflexivity]. now destruct (rd_bool _ _).
  - unfold removeProvider, onlyOwner. cbn [owner set_paused isProvider].
    destruct (_ =? _); simpl; [|reflexivity]. now destruct (rd_bool _ _).
  - unfold unpause, onlyOwner. cbn [owner set_paused].
    now destruct (_ =? _).
  - unfold setCooldownSeconds, onlyOwner.
    cbn [owner set_paused cooldownSeconds].
    destruct (_ =? _); simpl; [|reflexivity]. now destruct (negb _).
  - rewrite !callback_cases. cbv zeta.
    change (rd_context (set_paused s flag) requestId)
      with (rd_context s requestId).
    change (dataPoints (set_paused s flag)) with (dataPoints s).
    cbn [owner set_paused].
    destruct (processed _); [reflexivity|].
    destruct (negb (_ =? _)); [reflexivity|].
    destruct (negb (checkSignatures _ _ _ _)); [reflexivity|].
    destruct (negb (32 <=? _)); reflexivity.
Qed.

Lemma unpausable_calls_ignore_pause_witness :
  outcome (exec MockEngine mock_this (anyone 900 300)
             (set_paused owner_requested true)
             (CallCallback 79 cleartext12 cleartext12))
  = inr [DecryptionCompleted 79 1 12].
Proof.
  rewrite (unpausable_calls_ignore_pause MockEngine mock_this (anyone 900 300)
             owner_requested (CallCallback 79 cleartext12 cleartext12) true
             eq_refl).
  vm_compute. reflexivity.
Defined.

(** [pause] needs the system unpaused and reverts with [Paused] otherwise;
    [unpause] has no such check. From an unpaused state, [pause] followed
    by [unpause] (both by the owner) restores the state exactly, and
    [unpause] on an unpaused system still succeeds and emits its event. *)
Theorem pause_unpause_round_trip (E : Engine) (this : Z) (env env' : Env)
    (s : State) :
  msg_sender env = owner s ->
  msg_sender env' = owner s ->
  paused s = false ->
  step E this (step E this s (env, CallPause)) (env', CallUnpause) = s /\
  pause env' (step E this s (env, CallPause)) = Revert Paused /\
  unpause env s = Ok (s, [UnpausedContract (msg_sender env)]).
Proof.
  intros Hown Hown' Hp.
  unfold step, exec; cbn [fst snd].
  unfold pause, unpause, onlyOwner, whenNotPaused.
  rewrite Hown, Z.eqb_refl, Hp. cbn [negb require bind state_after].
  cbn [owner set_paused paused]. rewrite Hown', Z.eqb_refl.
  cbn [negb require bind state_after].
  destruct s; simpl in *; subst. repeat split.
Qed.

Lemma pause_unpause_round_trip_witness :
  step MockEngine mock_this
    (step MockEngine mock_this both_submitted (anyone 1 300, CallPause))
    (anyone 1 400, CallUnpause) = both_submitted.
Proof.
  apply (pause_unpause_round_trip MockEngine mock_this (anyone 1 300)
           (anyone 1 400) both_submitted); vm_compute; reflexivity.
Defined.

(** *** The cooldown parameter *)

(** The cooldown is never zero: the constructor sets it to 60 and
    [setCooldownSeconds] rejects zero with [InvalidCooldown]. *)
Theorem cooldown_never_zero (E : Engine) (this : Z) (s : State) :
  reachable E this s ->
  cooldownSeconds s <> 0 /\
  forall env, is_ok (setCooldownSeconds env s 0) = false.
Proof.
  intros Hs. destruct (reachable_StoreInv E this s Hs) as [_ [I1 _ _ _]].
  split; [exact I1|].
  intros env. unfold setCooldownSeconds, onlyOwner.
  destruct (_ =? _); reflexivity.
Qed.

Lemma cooldown_never_zero_witness :
  reachable MockEngine mock_this provider_overwrote /\
  cooldownSeconds provider_overwrote <> 0.
Proof.
  assert (Hreach : reachable MockEngine mock_this provider_overwrote).
  { apply reachable_run. apply reachable_run. apply reachable_deployed. }
  split; [exact Hreach|].
  exact (proj1 (cooldown_never_zero MockEngine mock_this provider_overwrote
                  Hreach)).
Defined.

(** *** Batches over time *)

Lemma run_app (E : Engine) (this : Z) (s : State)
    (txs txs' : list (Env * Call)) :
  run E this s (txs ++ txs') = run E this (run E this s txs) txs'.
Proof. unfold run. apply fold_left_app. Qed.

Lemma step_currentBatchId (E : Engine) (this : Z) (s : State)
    (t : Env * Call) :
  currentBatchId s <= currentBatchId (step E this s t).
Proof.
  destruct t as [env c].
  destruct c; unfold_call; split_guards; cbn [state_after]; try lia;
    try (simpl; lia).
  - destruct (negb _); simpl; lia.
  - destruct (rd_bool _ _); simpl; lia.
Qed.

Lemma step_closed_stays_closed (E : Engine) (this : Z) (s : State)
    (t : Env * Call) (b : Z) :
  b <= currentBatchId s ->
  rd_bool (isBatchOpen s) b = false ->
  rd_bool (isBatchOpen (step E this s t)) b = false.
Proof.
  intros Hk Hc. destruct t as [env c].
  destruct c; unfold_call; split_guards; cbn [state_after]; try exact Hc.
  - destruct (negb (rd_bool (isProvider s) provider)); simpl; exact Hc.
  - destruct (rd_bool (isProvider s) provider); simpl; exact Hc.
  - simpl. rewrite rd_bool_insert_ne by lia. exact Hc.
  - simpl. destruct (decide (b0 = b)) as [->|Hne].
    + apply rd_bool_insert_eq.
    + rewrite rd_bool_insert_ne by assumption. exact Hc.
Qed.

Lemma run_closed_stays_closed (E : Engine) (this : Z)
    (txs : list (Env * Call)) (s : State) (b : Z) :
  b <= currentBatchId s ->
  rd_bool (isBatchOpen s) b = false ->
  b <= currentBatchId (run E this s txs) /\
  rd_bool (isBatchOpen (run E this s txs)) b = false.
Proof.
  revert s. induction txs as [|t txs IH]; intros s Hk Hc; simpl.
  - split; assumption.
  - apply IH.
    + pose proof (step_currentBatchId E this s t). lia.
    + now apply step_closed_stays_closed.
Qed.

(** The submission counter of a batch moves by one on an accepted submit
    into it and by nothing on any other transaction. *)
Lemma step_count (E : Engine) (this : Z) (s : State) (t : Env * Call)
    (b : Z) :
  Inv s ->
  rd_uint (batchSubmissionCount (step E this s t)) b
  = rd_uint (batchSubmissionCount s) b + accepted_submits E this s [t] b.
Proof.
  intros HI. destruct t as [env c]. cbn [accepted_submits fst snd].
  destruct c; unfold_call; split_guards; cbn [state_after is_ok];
    rewrite ?andb_false_r; try (simpl; lia).
  - destruct (negb _); simpl; lia.
  - destruct (rd_bool _ _); simpl; lia.
  - (* openBatch: the fresh identifier has no submissions yet *)
    simpl. destruct (decide (b = currentBatchId s + 1)) as [->|Hne].
    + rewrite rd_uint_insert_eq.
      destruct (Z.eq_dec
                  (rd_uint (batchSubmissionCount s) (currentBatchId s + 1)) 0)
        as [Hz|Hnz]; [lia|].
      apply (inv_count s HI) in Hnz. unfold batch_known in Hnz. lia.
    + rewrite rd_uint_insert_ne by congruence. lia.
  - (* accepted submit *)
    simpl. rewrite andb_true_r.
    destruct (Z.eqb_spec b0 b) as [->|Hne].
    + rewrite rd_uint_insert_eq. lia.
    + rewrite rd_uint_insert_ne by assumption. lia.
Qed.

(** Only [submit], and only the submitting provider's own entry. *)
Lemma step_dataPoints_other (E : Engine) (this : Z) (s : State)
    (t : Env * Call) (b p : Z) :
  msg_sender (fst t) <> p ->
  dataPoints (step E this s t) b p = dataPoints s b p.
Proof.
  intros Hne. destruct t as [env c]. cbn [fst] in Hne.
  destruct c; unfold_call; split_guards; cbn [state_after]; try reflexivity.
  - destruct (negb _); reflexivity.
  - destruct (rd_bool _ _); reflexivity.
  - unfold dataPoints. simpl. rewrite lookup_insert_ne by congruence.
    reflexivity.
Qed.

Lemma step_data_not_submit (E : Engine) (this : Z) (s : State)
    (t : Env * Call) :
  (forall b points, snd t <> CallSubmit b points) ->
  batchGeneticData (step E this s t) = batchGeneticData s.
Proof.
  intros Hns. destruct t as [env c]. cbn [snd] in Hns.
  destruct c; try (exfalso; eapply Hns; reflexivity);
    unfold_call; split_guards; cbn [state_after]; try reflexivity.
  - destruct (negb _); reflexivity.
  - destruct (rd_bool _ _); reflexivity.
Qed.

Lemma run_reachable_Inv (E : Engine) (this : Z) (txs : list (Env * Call))
    (s : State) :
  Inv s -> Inv (run E this s txs).
Proof.
  revert s. induction txs as [|t txs IH]; intros s HI; simpl.
  - exact HI.
  - apply IH. now apply Inv_step.
Qed.

Lemma accepted_submits_nonneg (E : Engine) (this : Z)
    (txs : list (Env * Call)) (s : State) (b : Z) :
  0 <= accepted_submits E this s txs b.
Proof.
  revert s. induction txs as [|t txs IH]; intros s; simpl; [lia|].
  specialize (IH (step E this s t)).
  destruct (snd t); try lia.
  destruct (_ && _); lia.
Qed.

(** A newly opened batch gets the next identifier and starts empty: its
    identifier was not open before, its counter reads zero and no provider
    has anything stored under it; the flags and counters of all other
    batches are as before. *)
Theorem openBatch_allocates_fresh_batch (E : Engine) (this : Z) (env : Env)
    (s s' : State) (events : list Event) :
  reachable E this s ->
  openBatch env s = Ok (s', events) ->
  let fresh := currentBatchId s + 1 in
  currentBatchId s' = fresh /\
  events = [BatchOpened fresh] /\
  rd_bool (isBatchOpen s) fresh = false /\
  rd_bool (isBatchOpen s') fresh = true /\
  rd_uint (batchSubmissionCount s') fresh = 0 /\
  (forall p, dataPoints s' fresh p = []) /\
  (forall b, b <> fresh ->
     rd_bool (isBatchOpen s') b = rd_bool (isBatchOpen s) b /\
     rd_uint (batchSubmissionCount s') b
       = rd_uint (batchSubmissionCount s) b).
Proof.
  intros Hs Hrun. cbv zeta.
  destruct (reachable_Inv E this s Hs) as [J1 J2 J3 J4].
  revert Hrun. unfold openBatch, onlyOwner, whenNotPaused.
  split_guards; try discriminate.
  intros H. injection H as <- <-. simpl.
  repeat split.
  - destruct (rd_bool (isBatchOpen s) (currentBatchId s + 1)) eqn:Ho;
      [|reflexivity].
    apply J2 in Ho. unfold batch_known in Ho. lia.
  - apply rd_bool_insert_eq.
  - apply rd_uint_insert_eq.
  - intros p.
    destruct (dataPoints s (currentBatchId s + 1) p) eqn:Hd; [exact Hd|].
    assert (Hk : batch_known s (currentBatchId s + 1))
      by (apply (J4 _ p); congruence).
    unfold batch_known in Hk. lia.
  - apply rd_bool_insert_ne. congruence.
  - apply rd_uint_insert_ne. congruence.
Qed.

Lemma openBatch_allocates_fresh_batch_witness :
  reachable MockEngine mock_this batch_closed /\
  is_ok (openBatch (anyone 1 300) batch_closed) = true /\
  currentBatchId (state_after batch_closed
                    (openBatch (anyone 1 300) batch_closed)) = 2.
Proof.
  assert (Hreach : reachable MockEngine mock_this batch_closed).
  { apply reachable_run. apply reachable_deployed. }
  split; [exact Hreach|].
  destruct (openBatch (anyone 1 300) batch_closed) as [[s' ev]|e] eqn:Hrun;
    [|vm_compute in Hrun; discriminate].
  split; [reflexivity|].
  destruct (openBatch_allocates_fresh_batch MockEngine mock_this
              (anyone 1 300) batch_closed s' ev Hreach Hrun) as (Hid & _).
  simpl. rewrite Hid. vm_compute. reflexivity.
Defined.

(** A closed batch is never reopened: once an allocated batch reads as not
    open, it reads so after every further sequence of transactions, and no
    later [submit] into it or [closeBatch] of it succeeds. *)
Theorem closed_batch_never_reopens (E : Engine) (this : Z) (s : State)
    (b : Z) (txs : list (Env * Call)) (env : Env) (points : list Z) :
  b <= currentBatchId s ->
  rd_bool (isBatchOpen s) b = false ->
  let s' := run E this s txs in
  rd_bool (isBatchOpen s') b = false /\
  is_ok (submitEncryptedGeneticData E env s' b points) = false /\
  is_ok (closeBatch env s' b) = false.
Proof.
  intros Hk Hc. cbv zeta.
  destruct (run_closed_stays_closed E this txs s b Hk Hc) as [_ Hc'].
  split; [exact Hc'|]. split.
  - rewrite submit_cases, Hc'.
    destruct (negb (rd_bool _ _)); [reflexivity|].
    destruct (paused _); [reflexivity|].
    destruct (respectSubmissionCooldown _ _); reflexivity.
  - unfold closeBatch, onlyOwner, whenNotPaused. rewrite Hc'.
    destruct (_ =? _); simpl; [|reflexivity].
    destruct (paused _); reflexivity.
Qed.

Lemma closed_batch_never_reopens_witness :
  1 <= currentBatchId batch_closed /\
  rd_bool (isBatchOpen batch_closed) 1 = false /\
  rd_bool (isBatchOpen
             (run MockEngine mock_this batch_closed
                [tx 1 300 0 CallOpenBatch; tx 1 400 0 (CallSubmit 1 [9])]))
    1 = false.
Proof.
  assert (Hk : 1 <= currentBatchId batch_closed) by (vm_compute; discriminate).
  assert (Hc : rd_bool (isBatchOpen batch_closed) 1 = false)
    by (vm_compute; reflexivity).
  refine (conj Hk (conj Hc _)).
  exact (proj1 (closed_batch_never_reopens MockEngine mock_this batch_closed 1
                  [tx 1 300 0 CallOpenBatch; tx 1 400 0 (CallSubmit 1 [9])]
                  (anyone 1 500) [9] Hk Hc)).
Defined.

Lemma step_frozen (E : Engine) (this : Z) (s : State) (t : Env * Call)
    (b p : Z) :
  Inv s ->
  b <= currentBatchId s ->
  rd_bool (isBatchOpen s) b = false ->
  rd_uint (batchSubmissionCount (step E this s t)) b
    = rd_uint (batchSubmissionCount s) b /\
  dataPoints (step E this s t) b p = dataPoints s b p.
Proof.
  intros HI Hk Hc. destruct t as [env c].
  destruct c; unfold_call; split_guards; cbn [state_after];
    try (split; reflexivity); try congruence.
  - destruct (negb (rd_bool (isProvider s) provider)); split; reflexivity.
  - destruct (rd_bool (isProvider s) provider); split; reflexivity.
  - simpl. split; [|reflexivity]. apply rd_uint_insert_ne. lia.
  - assert (Hne : b0 <> b) by congruence.
    unfold dataPoints. simpl. split.
    + apply rd_uint_insert_ne. exact Hne.
    + rewrite lookup_insert_ne by congruence. reflexivity.
Qed.

(** Closing a batch is final for its contents: the count carried by the
    [BatchClosed] event, and every provider's stored list in that batch,
    stay as they are through every later sequence of transactions. *)
Theorem closeBatch_freezes_batch (E : Engine) (this : Z) (env : Env)
    (s s' : State) (events : list Event) (b : Z) (txs : list (Env * Call))
    (p : Z) :
  reachable E this s ->
  closeBatch env s b = Ok (s', events) ->
  events = [BatchClosedEvent b (rd_uint (batchSubmissionCount s) b)] /\
  rd_uint (batchSubmissionCount (run E this s' txs)) b
    = rd_uint (batchSubmissionCount s) b /\
  dataPoints (run E this s' txs) b p = dataPoints s b p.
Proof.
  intros Hs Hrun.
  assert (HI' : Inv s').
  { pose proof (Inv_step E this s (env, CallCloseBatch b)
                  (reachable_Inv E this s Hs)) as H.
    unfold step in H. simpl in H. now rewrite Hrun in H. }
  destruct (reachable_Inv E this s Hs) as [_ J2 _ _].
  revert Hrun. unfold closeBatch, onlyOwner, whenNotPaused.
  split_guards; try discriminate.
  intros H. injection H as <- <-.
  split; [reflexivity|].
  apply J2 in Hguard1. unfold batch_known in Hguard1.
  set (s0 := set_isBatchOpen s b false) in *.
  assert (Hgen : forall txs0 s1,
    Inv s1 -> b <= currentBatchId s1 -> rd_bool (isBatchOpen s1) b = false ->
    rd_uint (batchSubmissionCount (run E this s1 txs0)) b
      = rd_uint (batchSubmissionCount s1) b /\
    dataPoints (run E this s1 txs0) b p = dataPoints s1 b p).
  { induction txs0 as [|t txs0 IH]; intros s1 HI1 Hk1 Hc1; simpl.
    - split; reflexivity.
    - destruct (step_frozen E this s1 t b p HI1 Hk1 Hc1) as [Hcnt Hdat].
      destruct (IH (step E this s1 t)) as [Hcnt' Hdat'].
      + now apply Inv_step.
      + pose proof (step_currentBatchId E this s1 t). lia.
      + now apply step_closed_stays_closed.
      + split; congruence. }
  apply (Hgen txs s0 HI').
  - simpl. lia.
  - apply rd_bool_insert_eq.
Qed.

Lemma closeBatch_freezes_batch_witness :
  reachable MockEngine mock_this both_submitted /\
  is_ok (closeBatch (anyone 1 300) both_submitted 1) = true /\
  rd_uint
    (batchSubmissionCount
       (run MockEngine mock_this
          (state_after both_submitted
             (closeBatch (anyone 1 300) both_submitted 1))
          [tx 2 400 0 (CallSubmit 1 [9]); tx 1 500 0 CallOpenBatch])) 1 = 2.
Proof.
  assert (Hreach : reachable MockEngine mock_this both_submitted).
  { apply reachable_run. apply reachable_deployed. }
  split; [exact Hreach|].
  destruct (closeBatch (anyone 1 300) both_submitted 1) as [[s' ev]|e]
    eqn:Hrun; [|vm_compute in Hrun; discriminate].
  split; [reflexivity|].
  destruct (closeBatch_freezes_batch MockEngine mock_this (anyone 1 300)
              both_submitted s' ev 1
              [tx 2 400 0 (CallSubmit 1 [9]); tx 1 500 0 CallOpenBatch] 2
              Hreach Hrun) as (_ & Hcount & _).
  simpl state_after. rewrite Hcount. vm_compute. reflexivity.
Defined.

(** The submission counter of a batch is the number of accepted [submit]
    calls into it: over any sequence of transactions it grows by exactly
    the number of successful submits into that batch (so it never
    decreases), and from deployment it equals that number. *)
Theorem submission_counter_counts_accepted_submits (E : Engine) (this : Z)
    (s : State) (txs : list (Env * Call)) (b : Z) :
  reachable E this s ->
  rd_uint (batchSubmissionCount (run E this s txs)) b
    = rd_uint (batchSubmissionCount s) b + accepted_submits E this s txs b /\
  rd_uint (batchSubmissionCount s) b
    <= rd_uint (batchSubmissionCount (run E this s txs)) b /\
  (forall env,
     rd_uint (batchSubmissionCount (run E this (constructor env) txs)) b
     = accepted_submits E this (constructor env) txs b).
Proof.
  intros Hs.
  assert (Hgen : forall txs0 s0, Inv s0 ->
    rd_uint (batchSubmissionCount (run E this s0 txs0)) b
    = rd_uint (batchSubmissionCount s0) b + accepted_submits E this s0 txs0 b).
  { induction txs0 as [|t txs0 IH]; intros s0 HI.
    - simpl. lia.
    - change (run E this s0 (t :: txs0))
        with (run E this (step E this s0 t) txs0).
      rewrite (IH (step E this s0 t)) by now apply Inv_step.
      rewrite (step_count E this s0 t b HI).
      cbn [accepted_submits]. lia. }
  split; [|split].
  - apply Hgen. now apply (reachable_Inv E this).
  - rewrite Hgen by now apply (reachable_Inv E this).
    pose proof (accepted_submits_nonneg E this txs s b). lia.
  - intros env. rewrite Hgen by apply Inv_constructor.
    unfold rd_uint at 1. simpl. rewrite lookup_empty. simpl. lia.
Qed.

Lemma submission_counter_counts_accepted_submits_witness :
  reachable MockEngine mock_this deployed /\
  rd_uint
    (batchSubmissionCount
       (run MockEngine mock_this deployed
          [ tx 1 30 0 CallOpenBatch;
            tx 1 100 0 (CallSubmit 1 [5]);
            tx 1 120 0 (CallSubmit 1 [6]);
            tx 1 200 0 (CallSubmit 1 [7]) ])) 1 = 2.
Proof.
  split; [apply reachable_deployed|].
  destruct (submission_counter_counts_accepted_submits MockEngine mock_this
              deployed
              [ tx 1 30 0 CallOpenBatch;
                tx 1 100 0 (CallSubmit 1 [5]);
                tx 1 120 0 (CallSubmit 1 [6]);
                tx 1 200 0 (CallSubmit 1 [7]) ] 1
              (reachable_deployed MockEngine mock_this _)) as (Hcount & _).
  rewrite Hcount. vm_compute. reflexivity.
Defined.

(** *** Stored submissions *)

(** A provider's stored list is written by that provider only, and by
    [submit] only: a transaction sent by any other address leaves it as it
    is, and a transaction that is not a [submit] leaves the whole store of
    submissions as it is. *)
Theorem submission_written_only_by_its_provider (E : Engine) (this : Z)
    (s : State) (t : Env * Call) (b p : Z) :
  (msg_sender (fst t) <> p ->
   dataPoints (step E this s t) b p = dataPoints s b p) /\
  ((forall b' points, snd t <> CallSubmit b' points) ->
   batchGeneticData (step E this s t) = batchGeneticData s).
Proof.
  split.
  - apply step_dataPoints_other.
  - apply step_data_not_submit.
Qed.

Lemma submission_written_only_by_its_provider_witness :
  dataPoints
    (step MockEngine mock_this both_submitted (tx 1 300 0 (CallSubmit 1 [9])))
    1 2 = [5].
Proof.
  rewrite (proj1 (submission_written_only_by_its_provider MockEngine mock_this
                    both_submitted (tx 1 300 0 (CallSubmit 1 [9])) 1 2)).
  - vm_compute. reflexivity.
  - vm_compute. discriminate.
Defined.

(** Every stored submission is well formed: it is non-empty, each of its
    handles is initialised or the canonical encrypted zero, it lies in an
    allocated batch, and that batch's counter is at least one. *)
Theorem stored_submissions_well_formed (E : Engine) (this : Z) (s : State)
    (b p : Z) (l : list Z) :
  reachable E this s ->
  batchGeneticData s !! (b, p) = Some l ->
  l <> [] /\ Forall (normalized E) l /\ batch_known s b /\
  1 <= rd_uint (batchSubmissionCount s) b.
Proof.
  intros Hs Hl.
  destruct (reachable_StoreInv E this s Hs) as [[_ _ _ J4] [_ _ I3 _]].
  destruct (I3 b p l Hl) as (Hne & Hnorm & Hc).
  repeat split; try assumption.
  - apply (J4 b p). unfold dataPoints. now rewrite Hl.
  - apply (J4 b p). unfold dataPoints. now rewrite Hl.
Qed.

Lemma stored_submissions_well_formed_witness :
  reachable MockEngine mock_this owner_requested /\
  batchGeneticData owner_requested !! (1, 1) = Some [5; 1; 6] /\
  Forall (normalized MockEngine) [5; 1; 6].
Proof.
  assert (Hreach : reachable MockEngine mock_this owner_requested).
  { apply reachable_run. apply reachable_deployed. }
  assert (Hl : batchGeneticData owner_requested !! (1, 1) = Some [5; 1; 6])
    by (vm_compute; reflexivity).
  refine (conj Hreach (conj Hl _)).
  destruct (stored_submissions_well_formed MockEngine mock_this
              owner_requested 1 1 [5; 1; 6] Hreach Hl) as (_ & Hnorm & _).
  exact Hnorm.
Defined.

(** *** Aggregation *)

(** The aggregate of a stored list is the left-to-right homomorphic sum
    seeded with the first element: the encrypted zero is the result for
    the empty list only and never enters the sum of a non-empty one; a
    single handle is returned as it is, without any addition. *)
Theorem aggregate_is_left_fold (E : Engine) (d x : Z) (points : list Z) :
  aggregate E [] = asEuint32_0 E /\
  aggregate E [d] = d /\
  aggregate E (d :: points) = fold_left (fhe_add E) points d /\
  aggregate E (d :: points ++ [x]) = fhe_add E (aggregate E (d :: points)) x.
Proof.
  repeat split.
  - apply aggregate_cons.
  - rewrite !aggregate_cons, fold_left_app. reflexivity.
Qed.

(** A provider that has stored nothing in a batch can still request its
    aggregate as soon as anyone has submitted into that batch: the request
    is admitted and the fingerprint it records is the digest of the
    canonical encrypted zero. *)
Theorem request_without_own_submission (E : Engine) (this : Z) (env : Env)
    (s : State) (b : Z) :
  rd_bool (isProvider s) (msg_sender env) = true ->
  paused s = false ->
  rd_uint (lastDecryptionRequestTime s) (msg_sender env) + cooldownSeconds s
    <= block_timestamp env ->
  block_timestamp env <= MAX_UINT256 ->
  rd_uint (batchSubmissionCount s) b <> 0 ->
  dataPoints s b (msg_sender env) = [] ->
  let zero_digest := keccak_cts E [asEuint32_0 E] this in
  outcome (requestResearchCalculation E this env s b)
    = inr [DecryptionRequested (oracle_requestId env) b zero_digest] /\
  rd_context (state_after s (requestResearchCalculation E this env s b))
    (oracle_requestId env)
    = {| batchId := b; stateHash := zero_digest; processed := false |}.
Proof.
  intros Hprov Hrun Helapsed Hnow Hcount Hnone. cbv zeta.
  rewrite request_cases, Hprov, Hrun. cbn [negb].
  pose proof (cooldown_gate_spec DecryptionRequest env s) as Hgate.
  simpl in Hgate. rewrite Hgate by lia.
  destruct (Z.ltb_spec (block_timestamp env)
              (rd_uint (lastDecryptionRequestTime s) (msg_sender env)
               + cooldownSeconds s)); [lia|].
  destruct (Z.eqb_spec (rd_uint (batchSubmissionCount s) b) 0);
    [contradiction|].
  cbv zeta. rewrite Hnone, aggregate_nil. cbn [outcome state_after].
  rewrite rd_context_set_eq. split; reflexivity.
Qed.

Lemma request_without_own_submission_witness :
  dataPoints provider_submitted 1 1 = [] /\
  outcome (requestResearchCalculation MockEngine mock_this
             {| msg_sender := 1; block_timestamp := 200;
                oracle_requestId := 81 |} provider_submitted 1)
  = inr [DecryptionRequested 81 1
           (keccak_cts MockEngine [asEuint32_0 MockEngine] mock_this)].
Proof.
  assert (Hnone : dataPoints provider_submitted 1 1 = [])
    by (vm_compute; reflexivity).
  split; [exact Hnone|].
  apply (request_without_own_submission MockEngine mock_this
           {| msg_sender := 1; block_timestamp := 200;
              oracle_requestId := 81 |} provider_submitted 1).
  - vm_compute. reflexivity.
  - vm_compute. reflexivity.
  - vm_compute. discriminate.
  - vm_compute. discriminate.
  - vm_compute. discriminate.
  - exact Hnone.
Defined.

(** *** Cooldowns across calls *)

(** What a successful gated call leaves behind for the gates. *)
Lemma gated_call_success (E : Engine) (this : Z) (cls : GatedClass)
    (env : Env) (s s' : State) (events : list Event) (b : Z)
    (points : list Z) :
  gated_call E this cls env s b points = Ok (s', events) ->
  isProvider s' = isProvider s /\
  paused s' = paused s /\
  cooldownSeconds s' = cooldownSeconds s /\
  rd_bool (isProvider s) (msg_sender env) = true /\
  paused s = false /\
  lastCallTime cls s' (msg_sender env) = block_timestamp env /\
  (forall cls' a, cls' <> cls \/ a <> msg_sender env ->
     lastCallTime cls' s' a = lastCallTime cls' s a).
Proof.
  destruct cls; simpl.
  - rewrite submit_cases.
    destruct (rd_bool (isProvider s) (msg_sender env)); [|discriminate].
    destruct (paused s) eqn:Hp; [discriminate|]. cbn [negb].
    destruct (respectSubmissionCooldown env s); [|discriminate].
    destruct (negb _); [discriminate|].
    destruct points; [discriminate|].
    destruct (checked_add _ _); [|discriminate].
    intros H. injection H as <- _. simpl. repeat split; try assumption.
    + apply rd_uint_insert_eq.
    + intros cls' addr Hother. destruct cls'; simpl; [|reflexivity].
      apply rd_uint_insert_ne. intros <-. destruct Hother; congruence.
  - rewrite (request_cases E this).
    destruct (rd_bool (isProvider s) (msg_sender env)); [|discriminate].
    destruct (paused s) eqn:Hp; [discriminate|]. cbn [negb].
    destruct (respectDecryptionCooldown env s); [|discriminate].
    destruct (_ =? 0); [discriminate|].
    intros H. injection H as <- _. simpl. repeat split; try assumption.
    + apply rd_uint_insert_eq.
    + intros cls' addr Hother. destruct cls'; simpl; [reflexivity|].
      apply rd_uint_insert_ne. intros <-. destruct Hother; congruence.
Qed.

Lemma cooldown_gate_reads (cls : GatedClass) (env : Env) (s s' : State) :
  cooldownSeconds s' = cooldownSeconds s ->
  lastCallTime cls s' (msg_sender env) = lastCallTime cls s (msg_sender env) ->
  cooldown_gate cls env s' = cooldown_gate cls env s.
Proof.
  intros Hc Ht. destruct cls; simpl in *;
    unfold respectSubmissionCooldown, respectDecryptionCooldown;
    now rewrite Hc, Ht.
Qed.

(** The cooldown slots are separate per identity and per class: a
    successful [submit] or [requestCalculation] moves the caller's slot of
    that class only, so it changes the verdict of no other gate, neither
    the caller's gate of the other class nor any gate of another address. *)
Theorem cooldown_slots_are_independent (E : Engine) (this : Z)
    (cls cls' : GatedClass) (env env' : Env) (s s' : State)
    (events : list Event) (b : Z) (points : list Z) :
  gated_call E this cls env s b points = Ok (s', events) ->
  cls' <> cls \/ msg_sender env' <> msg_sender env ->
  cooldown_gate cls' env' s' = cooldown_gate cls' env' s.
Proof.
  intros Hrun Hother.
  destruct (gated_call_success E this cls env s s' events b points Hrun)
    as (_ & _ & Hc & _ & _ & _ & Hframe).
  apply cooldown_gate_reads; [exact Hc|].
  apply Hframe. exact Hother.
Qed.

Lemma cooldown_slots_are_independent_witness :
  is_ok (gated_call MockEngine mock_this Submission (anyone 2 300)
           both_submitted 1 [9]) = true /\
  cooldown_gate DecryptionRequest (anyone 2 300)
    (state_after both_submitted
       (gated_call MockEngine mock_this Submission (anyone 2 300)
          both_submitted 1 [9])) = Ok tt.
Proof.
  destruct (gated_call MockEngine mock_this Submission (anyone 2 300)
              both_submitted 1 [9]) as [[s' ev]|e] eqn:Hrun;
    [|vm_compute in Hrun; discriminate].
  split; [reflexivity|].
  simpl state_after.
  rewrite (cooldown_slots_are_independent MockEngine mock_this Submission
             DecryptionRequest (anyone 2 300) (anyone 2 300) both_submitted
             s' ev 1 [9] Hrun).
  - vm_compute. reflexivity.
  - left. discriminate.
Defined.

(** A transaction from an address other than the owner leaves the owner,
    the provider flags, the pause flag and the cooldown as they are. *)
Lemma step_by_other_keeps_admin (E : Engine) (this : Z) (s : State)
    (t : Env * Call) :
  msg_sender (fst t) <> owner s ->
  owner (step E this s t) = owner s /\
  isProvider (step E this s t) = isProvider s /\
  paused (step E this s t) = paused s /\
  cooldownSeconds (step E this s t) = cooldownSeconds s.
Proof.
  intros Hne. destruct t as [env c]. cbn [fst] in Hne.
  apply Z.eqb_neq in Hne.
  destruct c; unfold_call; rewrite ?Hne; cbn [require bind state_after];
    try (repeat split; reflexivity);
    split_guards; cbn [state_after]; repeat split; reflexivity.
Qed.

(** A cooldown slot is written by its own address only. *)
Lemma step_by_other_keeps_slot (E : Engine) (this : Z) (s : State)
    (t : Env * Call) (cls : GatedClass) (a : Z) :
  msg_sender (fst t) <> a ->
  lastCallTime cls (step E this s t) a = lastCallTime cls s a.
Proof.
  intros Hne. destruct t as [env c]. cbn [fst] in Hne.
  destruct c; unfold_call; split_guards; cbn [state_after];
    try reflexivity.
  - destruct (negb (rd_bool (isProvider s) provider)); reflexivity.
  - destruct (rd_bool (isProvider s) provider); reflexivity.
  - destruct cls; simpl; [|reflexivity]. now apply rd_uint_insert_ne.
  - destruct cls; simpl; [reflexivity|]. now apply rd_uint_insert_ne.
Qed.

Lemma run_by_others_keeps_gate (E : Engine) (this : Z)
    (txs : list (Env * Call)) (s : State) (cls : GatedClass) (a : Z) :
  Forall (fun t => msg_sender (fst t) <> a /\ msg_sender (fst t) <> owner s)
    txs ->
  isProvider (run E this s txs) = isProvider s /\
  paused (run E this s txs) = paused s /\
  cooldownSeconds (run E this s txs) = cooldownSeconds s /\
  lastCallTime cls (run E this s txs) a = lastCallTime cls s a.
Proof.
  revert s. induction txs as [|t txs IH]; intros s Hall.
  - repeat split.
  - inversion Hall as [|t0 txs0 [Hna Hno] Hrest]; subst.
    destruct (step_by_other_keeps_admin E this s t Hno)
      as (Ho & Hp & Hpa & Hc).
    pose proof (step_by_other_keeps_slot E this s t cls a Hna) as Hs.
    change (run E this s (t :: txs)) with (run E this (step E this s t) txs).
    destruct (IH (step E this s t)) as (Hp' & Hpa' & Hc' & Hs').
    + rewrite Ho. exact Hrest.
    + repeat split; congruence.
Qed.

Lemma gated_call_keeps_owner (E : Engine) (this : Z) (cls : GatedClass)
    (env : Env) (s s' : State) (events : list Event) (b : Z)
    (points : list Z) :
  gated_call E this cls env s b points = Ok (s', events) ->
  owner s' = owner s.
Proof.
  destruct cls; simpl.
  - rewrite submit_cases.
    destruct (negb _); [discriminate|].
    destruct (paused s); [discriminate|].
    destruct (respectSubmissionCooldown env s); [|discriminate].
    destruct (negb _); [discriminate|].
    destruct points; [discriminate|].
    destruct (checked_add _ _); [|discriminate].
    intros H. injection H as <- _. reflexivity.
  - rewrite (request_cases E this).
    destruct (negb _); [discriminate|].
    destruct (paused s); [discriminate|].
    destruct (respectDecryptionCooldown env s); [|discriminate].
    destruct (_ =? 0); [discriminate|].
    intros H. injection H as <- _. reflexivity.
Qed.

(** After a successful gated call at time [now], and after any further
    transactions sent by addresses other than the caller and the owner,
    every call of the same class by the caller at a time before
    [now + cooldownSeconds] is rejected with [CooldownActive], whatever
    batch and handles it names. The deadline is taken within [uint256]. *)
Theorem repeated_call_within_cooldown_rejected (E : Engine) (this : Z)
    (cls : GatedClass) (env env' : Env) (s s' : State) (events : list Event)
    (b b' : Z) (points points' : list Z) (txs : list (Env * Call)) :
  gated_call E this cls env s b points = Ok (s', events) ->
  Forall (fun t => msg_sender (fst t) <> msg_sender env /\
                   msg_sender (fst t) <> owner s) txs ->
  msg_sender env' = msg_sender env ->
  block_timestamp env' < block_timestamp env + cooldownSeconds s ->
  block_timestamp env + cooldownSeconds s <= MAX_UINT256 ->
  gated_call E this cls env' (run E this s' txs) b' points'
    = Revert CooldownActive.
Proof.
  intros Hrun Hothers Hsame Hsoon Hfit.
  destruct (gated_call_success E this cls env s s' events b points Hrun)
    as (Hprov' & Hp' & Hc & Hprov & Hp & Hlast & _).
  pose proof (gated_call_keeps_owner E this cls env s s' events b points Hrun)
    as Hown.
  rewrite <- Hown in Hothers.
  destruct (run_by_others_keeps_gate E this txs s' cls (msg_sender env)
              Hothers) as (Rprov & Rp & Rc & Rlast).
  set (s2 := run E this s' txs) in *.
  assert (Hgate : cooldown_gate cls env' s2 = Revert CooldownActive).
  { rewrite cooldown_gate_spec; rewrite Hsame, Rlast, Hlast, Rc, Hc;
      [|exact Hfit].
    destruct (Z.ltb_spec (block_timestamp env')
                (block_timestamp env + cooldownSeconds s)); [reflexivity|lia]. }
  destruct cls; simpl in *.
  - rewrite submit_cases, Rprov, Rp, Hprov', Hp', Hsame, Hprov, Hp,
      <- Hsame, Hgate.
    reflexivity.
  - rewrite (request_cases E this), Rprov, Rp, Hprov', Hp', Hsame, Hprov, Hp,
      <- Hsame, Hgate.
    reflexivity.
Qed.

Lemma repeated_call_within_cooldown_rejected_witness :
  is_ok (gated_call MockEngine mock_this DecryptionRequest
           {| msg_sender := 2; block_timestamp := 300;
              oracle_requestId := 82 |} both_submitted 1 []) = true /\
  gated_call MockEngine mock_this DecryptionRequest
    {| msg_sender := 2; block_timestamp := 359; oracle_requestId := 83 |}
    (run MockEngine mock_this
       (state_after both_submitted
          (gated_call MockEngine mock_this DecryptionRequest
             {| msg_sender := 2; block_timestamp := 300;
                oracle_requestId := 82 |} both_submitted 1 []))
       [tx 900 310 0 (CallCallback 82 cleartext12 cleartext12);
        tx 3 320 0 (CallSubmit 1 [4])])
    1 [] = Revert CooldownActive.
Proof.
  destruct (gated_call MockEngine mock_this DecryptionRequest
              {| msg_sender := 2; block_timestamp := 300;
                 oracle_requestId := 82 |} both_submitted 1 [])
    as [[s' ev]|e] eqn:Hrun; [|vm_compute in Hrun; discriminate].
  split; [reflexivity|].
  simpl state_after.
  apply (repeated_call_within_cooldown_rejected MockEngine mock_this
           DecryptionRequest _ _ both_submitted s' ev 1 1 [] []
           [tx 900 310 0 (CallCallback 82 cleartext12 cleartext12);
            tx 3 320 0 (CallSubmit 1 [4])] Hrun).
  - repeat constructor; vm_compute; discriminate.
  - reflexivity.
  - vm_compute. reflexivity.
  - vm_compute. discriminate.
Defined.

(** *** Decryption requests over time *)

Lemma step_completed_context (E : Engine) (this : Z) (s : State)
    (t : Env * Call) (requestId : Z) :
  processed (rd_context s requestId) = true ->
  (forall b, snd t = CallRequest b -> oracle_requestId (fst t) <> requestId) ->
  rd_context (step E this s t) requestId = rd_context s requestId.
Proof.
  intros Hdone Hfresh. destruct t as [env c]. cbn [fst snd] in Hfresh.
  destruct c; unfold_call; split_guards; cbn [state_after]; try reflexivity.
  - destruct (negb (rd_bool (isProvider s) provider)); reflexivity.
  - destruct (rd_bool (isProvider s) provider); reflexivity.
  - unfold rd_context. simpl.
    rewrite lookup_insert_ne; [reflexivity|]. exact (Hfresh b eq_refl).
  - unfold rd_context. simpl.
    destruct (decide (requestId0 = requestId)) as [->|Hne].
    + rewrite Hdone in Hguard. discriminate.
    + rewrite lookup_insert_ne by assumption. reflexivity.
Qed.

(** A completed request stays completed: through every sequence of
    transactions in which the engine does not hand out its identifier
    again, its context is unchanged and a further callback for it is
    rejected with [ReplayAttempt]. *)
Theorem completed_request_stays_completed (E : Engine) (this : Z) (s : State)
    (txs : list (Env * Call)) (requestId : Z) (env : Env)
    (cleartexts proof : list Byte.byte) :
  processed (rd_context s requestId) = true ->
  Forall (fun t => forall b, snd t = CallRequest b ->
                   oracle_requestId (fst t) <> requestId) txs ->
  rd_context (run E this s txs) requestId = rd_context s requestId /\
  myCallback E this env (run E this s txs) requestId cleartexts proof
    = Revert ReplayAttempt.
Proof.
  intros Hdone Hfresh.
  assert (Hctx : rd_context (run E this s txs) requestId
                 = rd_context s requestId).
  { revert s Hdone. induction Hfresh as [|t txs Ht _ IH]; intros s Hdone.
    - reflexivity.
    - simpl. rewrite IH.
      + now apply step_completed_context.
      + now rewrite step_completed_context. }
  split; [exact Hctx|].
  rewrite callback_cases. cbv zeta. now rewrite Hctx, Hdone.
Qed.

Lemma completed_request_stays_completed_witness :
  processed
    (rd_context
       (step MockEngine mock_this owner_requested
          (tx 900 300 0 (CallCallback 79 cleartext12 cleartext12))) 79)
    = true /\
  myCallback MockEngine mock_this (anyone 900 900)
    (run MockEngine mock_this
       (step MockEngine mock_this owner_requested
          (tx 900 300 0 (CallCallback 79 cleartext12 cleartext12)))
       [tx 1 400 0 (CallSubmit 1 [8]); tx 1 500 80 (CallRequest 1)])
    79 cleartext12 cleartext12 = Revert ReplayAttempt.
Proof.
  assert (Hdone : processed
            (rd_context
               (step MockEngine mock_this owner_requested
                  (tx 900 300 0 (CallCallback 79 cleartext12 cleartext12)))
               79) = true) by (vm_compute; reflexivity).
  split; [exact Hdone|].
  apply (completed_request_stays_completed MockEngine mock_this _
           [tx 1 400 0 (CallSubmit 1 [8]); tx 1 500 80 (CallRequest 1)]
           79 (anyone 900 900) cleartext12 cleartext12 Hdone).
  repeat constructor; simpl; intros b Hb; try discriminate.
Defined.

(** Every pending request refers to an allocated batch that has at least
    one recorded submission. *)
Theorem pending_request_has_submitted_batch (E : Engine) (this : Z)
    (s : State) (requestId : Z) (c : DecryptionContext) :
  reachable E this s ->
  decryptionContexts s !! requestId = Some c ->
  processed c = false ->
  batch_known s (batchId c) /\
  1 <= rd_uint (batchSubmissionCount s) (batchId c).
Proof.
  intros Hs Hc Hp.
  destruct (reachable_StoreInv E this s Hs) as [_ [_ _ _ I4]].
  exact (I4 requestId c Hc Hp).
Qed.

Lemma pending_request_has_submitted_batch_witness :
  reachable MockEngine mock_this provider_overwrote /\
  batch_known provider_overwrote (batchId (rd_context provider_overwrote 78)).
Proof.
  assert (Hreach : reachable MockEngine mock_this provider_overwrote).
  { apply reachable_run. apply reachable_run. apply reachable_deployed. }
  split; [exact Hreach|].
  destruct (decryptionContexts provider_overwrote !! 78) as [c|] eqn:Hc;
    [|vm_compute in Hc; discriminate].
  unfold rd_context. rewrite Hc. simpl.
  apply (pending_request_has_submitted_batch MockEngine mock_this
           provider_overwrote 78 c Hreach Hc).
  vm_compute in Hc. injection Hc as <-. reflexivity.
Defined.

(** *** What a successful callback does *)

Lemma byte_below_256 (b : Byte.byte) : 0 <= Z.of_N (Byte.to_N b) < 256.
Proof. destruct b; split; vm_compute; congruence. Qed.

Lemma be_uint_bound (bs : list Byte.byte) :
  0 <= be_uint bs < 256 ^ Z.of_nat (length bs).
Proof.
  unfold be_uint.
  assert (Hgen : forall l acc, 0 <= acc ->
    0 <= fold_left (fun a b => a * 256 + Z.of_N (Byte.to_N b)) l acc
      < (acc + 1) * 256 ^ Z.of_nat (length l)).
  { induction l as [|b l IH]; intros acc Hacc.
    - simpl. lia.
    - cbn [fold_left length]. pose proof (byte_below_256 b) as Hb.
      specialize (IH (acc * 256 + Z.of_N (Byte.to_N b)) ltac:(lia)).
      rewrite Nat2Z.inj_succ, Z.pow_succ_r by lia.
      split; [lia|].
      eapply Z.lt_le_trans; [apply IH|].
      assert (0 < 256 ^ Z.of_nat (length l)) by (apply Z.pow_pos_nonneg; lia).
      nia. }
  specialize (Hgen bs 0 ltac:(lia)). lia.
Qed.

(** A successful callback completes its own request and touches nothing
    else: the request was pending, it is now processed with its batch and
    fingerprint as recorded, every other request and every other part of
    the ledger is as before, and the single event carries the request's
    batch and the first 32 bytes of the cleartext read as a [uint256]. *)
Theorem callback_completes_only_its_request (E : Engine) (this : Z)
    (env : Env) (s s' : State) (events : list Event) (requestId : Z)
    (cleartexts proof : list Byte.byte) :
  myCallback E this env s requestId cleartexts proof = Ok (s', events) ->
  let ctx := rd_context s requestId in
  processed ctx = false /\
  rd_context s' requestId
    = {| batchId := batchId ctx; stateHash := stateHash ctx;
         processed := true |} /\
  (forall r, r <> requestId ->
     decryptionContexts s' !! r = decryptionContexts s !! r) /\
  set_context s' requestId ctx = set_context s requestId ctx /\
  (exists res, events = [DecryptionCompleted requestId (batchId ctx) res] /\
               0 <= res <= MAX_UINT256).
Proof.
  rewrite callback_cases. cbv zeta.
  destruct (processed (rd_context s requestId)) eqn:Hp; [discriminate|].
  destruct (negb (_ =? _)); [discriminate|].
  destruct (negb (checkSignatures _ _ _ _)); [discriminate|].
  destruct (negb (32 <=? _)); [discriminate|].
  intros H. injection H as <- <-.
  split; [reflexivity|]. split; [apply rd_context_set_eq|].
  split; [|split].
  - intros r Hne. simpl. rewrite lookup_insert_ne by congruence. reflexivity.
  - unfold set_context. simpl. rewrite insert_insert_eq. reflexivity.
  - eexists. split; [reflexivity|].
    pose proof (be_uint_bound (firstn 32 cleartexts)) as Hb.
    assert (Hlen : Z.of_nat (length (firstn 32 cleartexts)) <= 32).
    { rewrite length_firstn. lia. }
    assert (Hpow : 256 ^ Z.of_nat (length (firstn 32 cleartexts))
                   <= 256 ^ 32).
    { apply Z.pow_le_mono_r; lia. }
    assert (Hmax : 256 ^ 32 = MAX_UINT256 + 1) by (vm_compute; reflexivity).
    lia.
Qed.

Lemma callback_completes_only_its_request_witness :
  is_ok (myCallback MockEngine mock_this (anyone 900 300) owner_requested 79
           cleartext12 cleartext12) = true /\
  processed
    (rd_context
       (state_after owner_requested
          (myCallback MockEngine mock_this (anyone 900 300) owner_requested
             79 cleartext12 cleartext12)) 79) = true.
Proof.
  destruct (myCallback MockEngine mock_this (anyone 900 300) owner_requested
              79 cleartext12 cleartext12) as [[s' ev]|e] eqn:Hrun;
    [|vm_compute in Hrun; discriminate].
  split; [reflexivity|].
  destruct (callback_completes_only_its_request MockEngine mock_this
              (anyone 900 300) owner_requested s' ev 79 cleartext12
              cleartext12 Hrun) as (_ & Hctx & _).
  simpl state_after. rewrite Hctx. reflexivity.
Defined.

(** *** Requests of the owner, end to end *)

(** For a request made by the owner the fingerprint check does its job.
    Take any later state in which the owner and the recorded context are
    the same: if the digest of the owner's aggregate for the batch is what
    it was at request time, a callback with a proof the engine accepts and
    a cleartext of at least 32 bytes completes the request and reports the
    decoded value; if that digest has changed, the callback is rejected
    with [StateMismatch]. *)
Theorem owner_request_state_check (E : Engine) (this : Z) (env env' : Env)
    (s s1 s2 : State) (events : list Event) (b : Z)
    (cleartexts proof : list Byte.byte) :
  msg_sender env = owner s ->
  requestResearchCalculation E this env s b = Ok (s1, events) ->
  owner s2 = owner s ->
  rd_context s2 (oracle_requestId env) = rd_context s1 (oracle_requestId env) ->
  let requestId := oracle_requestId env in
  let digest l := keccak_cts E [aggregate E l] this in
  (digest (dataPoints s2 b (owner s)) = digest (dataPoints s b (owner s)) ->
   checkSignatures E requestId cleartexts proof = true ->
   32 <= Z.of_nat (length cleartexts) ->
   outcome (myCallback E this env' s2 requestId cleartexts proof)
   = inr [DecryptionCompleted requestId b (be_uint (firstn 32 cleartexts))])
  /\
  (digest (dataPoints s2 b (owner s)) <> digest (dataPoints s b (owner s)) ->
   myCallback E this env' s2 requestId cleartexts proof
   = Revert StateMismatch).
Proof.
  intros Hown Hreq Hsame Hctx. cbv zeta.
  destruct (request_records_caller_aggregate E this env s s1 events b Hreq)
    as (Hrec & _ & _).
  rewrite Hrec in Hctx. unfold _hashCiphertexts in Hctx. rewrite Hown in Hctx.
  rewrite callback_cases. cbv zeta. rewrite Hctx, Hsame. simpl.
  split.
  - intros Hdigest Hproof Hlen. rewrite Hdigest, Z.eqb_refl, Hproof. simpl.
    destruct (Z.leb_spec 32 (Z.of_nat (length cleartexts))); [|lia].
    reflexivity.
  - intros Hdigest. apply Z.eqb_neq in Hdigest. now rewrite Hdigest.
Qed.

Lemma owner_request_state_check_witness :
  outcome (myCallback MockEngine mock_this (anyone 900 300)
             (run MockEngine mock_this deployed
                [ tx 1 30 0 CallOpenBatch;
                  tx 1 100 0 (CallSubmit 1 [5; 0; 6]);
                  tx 1 200 79 (CallRequest 1);
                  tx 1 210 0 (CallCloseBatch 1) ])
             79 cleartext12 cleartext12)
  = inr [DecryptionCompleted 79 1 12] /\
  myCallback MockEngine mock_this (anyone 900 300)
    (run MockEngine mock_this deployed
       [ tx 1 30 0 CallOpenBatch;
         tx 1 100 0 (CallSubmit 1 [5; 0; 6]);
         tx 1 200 79 (CallRequest 1);
         tx 1 260 0 (CallSubmit 1 [5; 0; 7]) ])
    79 cleartext12 cleartext12 = Revert StateMismatch.
Proof.
  set (s := run MockEngine mock_this deployed
              [ tx 1 30 0 CallOpenBatch;
                tx 1 100 0 (CallSubmit 1 [5; 0; 6]) ]).
  set (env := {| msg_sender := 1; block_timestamp := 200;
                 oracle_requestId := 79 |}).
  assert (Hown : msg_sender env = owner s) by (vm_compute; reflexivity).
  destruct (requestResearchCalculation MockEngine mock_this env s 1)
    as [[s1 ev]|e] eqn:Hreq; [|vm_compute in Hreq; discriminate].
  assert (Hs1 : s1 = step MockEngine mock_this s (env, CallRequest 1)).
  { unfold step. simpl. now rewrite Hreq. }
  split.
  - destruct (owner_request_state_check MockEngine mock_this env
                (anyone 900 300) s s1
                (run MockEngine mock_this deployed
                   [ tx 1 30 0 CallOpenBatch;
                     tx 1 100 0 (CallSubmit 1 [5; 0; 6]);
                     tx 1 200 79 (CallRequest 1);
                     tx 1 210 0 (CallCloseBatch 1) ])
                ev 1 cleartext12 cleartext12 Hown Hreq) as [Hok _].
    + vm_compute. reflexivity.
    + rewrite Hs1. vm_compute. reflexivity.
    + change (be_uint (firstn 32 cleartext12)) with 12 in Hok.
      apply Hok; vm_compute; try reflexivity. discriminate.
  - destruct (owner_request_state_check MockEngine mock_this env
                (anyone 900 300) s s1
                (run MockEngine mock_this deployed
                   [ tx 1 30 0 CallOpenBatch;
                     tx 1 100 0 (CallSubmit 1 [5; 0; 6]);
                     tx 1 200 79 (CallRequest 1);
                     tx 1 260 0 (CallSubmit 1 [5; 0; 7]) ])
                ev 1 cleartext12 cleartext12 Hown Hreq) as [_ Hbad].
    + vm_compute. reflexivity.
    + rewrite Hs1. vm_compute. reflexivity.
    + apply Hbad. vm_compute. discriminate.
Defined.

(** ** The dashboard *)

Module FrontendFacts.

Import Stdlib.Strings.String.
Import Frontend.

Lemma substring_all (s : String.string) :
  String.substring 0 (String.length s) s = s.
Proof. induction s as [|c s IH]; simpl; [reflexivity|now rewrite IH]. Qed.

Lemma lookup_map {A B : Type} (f : A -> B) (l : list A) (i : nat) :
  map f l !! i = f <$> (l !! i).
Proof.
  revert i. induction l as [|x l IH]; intros [|i]; simpl; try reflexivity.
  apply IH.
Qed.

Lemma prefix_FHE (x : String.string) :
  String.prefix "FHE-"%string (String.append "FHE-"%string x) = true.
Proof. simpl. now destruct x. Qed.

Lemma substring_from_FHE (x : String.string) :
  substring_from 4 (String.append "FHE-"%string x) = x.
Proof.
  unfold substring_from. simpl. rewrite ?Nat.sub_0_r. apply substring_all.
Qed.

(** Decrypting what [FHEEncryptNumber] produced gives the number back,
    provided the platform's base64 and number printing round-trip; and a
    string that does not start with ["FHE-"%string] decrypts to 0 without being
    decoded at all. *)
Theorem FHE_number_round_trip {number : Type} (zero : number)
    (toString : number -> String.string)
    (parseFloat : String.string -> number)
    (btoa : String.string -> String.string)
    (atob : String.string -> option String.string)
    (value : number) (other : String.string) :
  ((forall s, atob (btoa s) = Some s) ->
   parseFloat (toString value) = value ->
   FHEDecryptNumber zero parseFloat atob (FHEEncryptNumber toString btoa value)
   = Some value) /\
  (String.prefix "FHE-"%string other = false ->
   FHEDecryptNumber zero parseFloat atob other = Some zero).
Proof.
  split.
  - intros Hb64 Hnum. unfold FHEDecryptNumber, FHEEncryptNumber.
    rewrite prefix_FHE, substring_from_FHE, Hb64, Hnum. reflexivity.
  - intros Hno. unfold FHEDecryptNumber. now rewrite Hno.
Qed.

Lemma FHE_number_round_trip_witness :
  FHEEncryptNumber mock_toString mock_btoa 742%N = "FHE-742"%string /\
  FHEDecryptNumber 0%N mock_parseFloat mock_atob
    (FHEEncryptNumber mock_toString mock_btoa 742%N) = Some 742%N /\
  FHEDecryptNumber 0%N mock_parseFloat mock_atob "plain-742"%string = Some 0%N.
Proof.
  destruct (FHE_number_round_trip 0%N mock_toString mock_parseFloat mock_btoa
              mock_atob 742%N "plain-742"%string) as [Hround Hplain].
  split; [vm_compute; reflexivity|]. split.
  - apply Hround; [reflexivity|vm_compute; reflexivity].
  - apply Hplain. vm_compute. reflexivity.
Defined.

Lemma map_imap_data_id (f : nat -> GeneData -> GeneData)
    (l : list GeneData) :
  (forall i d, data_id (f i d) = data_id d) ->
  map data_id (imap f l) = map data_id l.
Proof.
  revert f. induction l as [|d l IH]; intros f Hf; simpl; [reflexivity|].
  rewrite Hf. f_equal. apply IH. intros i d'. apply Hf.
Qed.

Lemma apply_action_ids (l : list GeneData) (a : Action) :
  map data_id l = map Z.of_nat (seq 1 (List.length l)) ->
  map data_id (apply_action l a)
  = map Z.of_nat (seq 1 (List.length (apply_action l a))).
Proof.
  intros Hl. destruct a; simpl.
  - unfold uploadGeneData. rewrite map_app, length_app, Hl. simpl.
    rewrite Nat.add_1_r, seq_S, map_app. simpl.
    do 2 f_equal. lia.
  - unfold authorizeResearch. rewrite length_map, map_map, <- Hl.
    apply map_ext. intros d. now destruct (_ =? _).
  - unfold executeResearchQuery. rewrite length_imap, <- Hl.
    apply map_imap_data_id. intros i d. now destruct (_ =? _).
Qed.

(** Records built by the three handlers from the empty list carry the
    identifiers 1, 2, ..., n in order, so no two records share one. *)
Theorem identifiers_are_consecutive (actions : list Action) :
  let l := fold_left apply_action actions [] in
  map data_id l = map Z.of_nat (seq 1 (List.length l)) /\
  List.NoDup (map data_id l).
Proof.
  cbv zeta.
  assert (Hgen : forall acts l,
    map data_id l = map Z.of_nat (seq 1 (List.length l)) ->
    map data_id (fold_left apply_action acts l)
    = map Z.of_nat (seq 1 (List.length (fold_left apply_action acts l)))).
  { induction acts as [|a acts IH]; intros l Hl; simpl; [exact Hl|].
    apply IH. now apply apply_action_ids. }
  specialize (Hgen actions [] eq_refl).
  split; [exact Hgen|].
  rewrite Hgen. apply Finite.Injective_map_NoDup.
  - intros x y. apply Nat2Z.inj.
  - apply List.seq_NoDup.
Qed.

Lemma evolves_refl (d : GeneData) : evolves d d.
Proof.
  unfold evolves. repeat split; auto; try lia.
  exists []. now rewrite app_nil_r.
Qed.

Lemma evolves_trans (d1 d2 d3 : GeneData) :
  evolves d1 d2 -> evolves d2 d3 -> evolves d1 d3.
Proof.
  intros (A1 & A2 & A3 & A4 & A5 & A6 & m1 & A7)
         (B1 & B2 & B3 & B4 & B5 & B6 & m2 & B7).
  unfold evolves. repeat split; try congruence; auto; try lia.
  exists (m1 ++ m2). rewrite B7, A7. now rewrite app_assoc.
Qed.

Lemma apply_action_evolves (l : list GeneData) (a : Action) (i : nat)
    (d : GeneData) :
  valid_action a ->
  l !! i = Some d ->
  exists d', apply_action l a !! i = Some d' /\ evolves d d'.
Proof.
  intros Hv Hd. destruct a; simpl in *.
  - exists d. split; [|apply evolves_refl].
    unfold uploadGeneData. apply lookup_app_l_Some. exact Hd.
  - unfold authorizeResearch. rewrite lookup_map, Hd. simpl.
    eexists. split; [reflexivity|].
    destruct (_ =? _); [|apply evolves_refl].
    unfold evolves. simpl. repeat split; auto; try lia. eauto.
  - unfold executeResearchQuery. rewrite list_lookup_imap, Hd. simpl.
    eexists. split; [reflexivity|].
    destruct (_ =? _); [|apply evolves_refl].
    specialize (Hv i).
    unfold evolves. simpl. repeat split; auto; try lia. eauto.
Qed.

(** No handler removes, reorders or rewrites a record's identity: through
    any sequence of uploads, authorizations and queries a record keeps its
    position, identifier, owner, encrypted genome and timestamp; an
    authorization is never withdrawn, the reward never decreases, and the
    list of research queries only grows at its end. *)
Theorem records_only_evolve (actions : list Action) (l : list GeneData)
    (i : nat) (d : GeneData) :
  Forall valid_action actions ->
  l !! i = Some d ->
  exists d', fold_left apply_action actions l !! i = Some d' /\ evolves d d'.
Proof.
  intros Hv. revert l d. induction Hv as [|a actions Ha _ IH]; intros l d Hd.
  - exists d. split; [exact Hd|apply evolves_refl].
  - simpl. destruct (apply_action_evolves l a i d Ha Hd) as (d1 & H1 & E1).
    destruct (IH _ _ H1) as (d2 & H2 & E2).
    exists d2. split; [exact H2|]. now apply (evolves_trans d d1 d2).
Qed.

Lemma records_only_evolve_witness :
  exists d',
    fold_left apply_action
      [Authorize 1 "r1"%string; Query 1 "q1"%string (fun _ => 4); Upload "0xb"%string "FHE-2"%string 30]
      (uploadGeneData [] "0xa"%string "FHE-1"%string 20) !! 0%nat = Some d' /\
    isAuthorized d' = true /\ rewardAmount d' = 5.
Proof.
  destruct (records_only_evolve
              [Authorize 1 "r1"%string; Query 1 "q1"%string (fun _ => 4); Upload "0xb"%string "FHE-2"%string 30]
              (uploadGeneData [] "0xa"%string "FHE-1"%string 20) 0
              {| data_id := 1; ownerId := "0xa"%string; encryptedGenome := "FHE-1"%string;
                 researchQueries := []; rewardAmount := 0; timestamp := 20;
                 isAuthorized := false |})
    as (d' & Hd & _).
  - repeat constructor; simpl; lia.
  - reflexivity.
  - exists d'. split; [exact Hd|].
    vm_compute in Hd. injection Hd as <-. split; reflexivity.
Defined.

Lemma includes_empty (s : String.string) : includes s ""%string = true.
Proof. unfold includes. destruct s; reflexivity. Qed.

(** With an empty search term the filter keeps every record, whatever the
    identifiers and owners are. *)
Theorem filteredData_empty_search (toString : Z -> String.string)
    (toLowerCase : String.string -> String.string)
    (geneDataList : list GeneData) :
  filteredData toString toLowerCase geneDataList ""%string = geneDataList.
Proof.
  unfold filteredData.
  induction geneDataList as [|d l IH]; simpl; [reflexivity|].
  rewrite includes_empty. simpl. now rewrite IH.
Qed.

End FrontendFacts.
